(** * Attention refinement backbone (detectron2/modeling/backbone/CIF_MultiHead.py)

    A shallow embedding of the self-attention refinement stage:
    [ScaledDotProductAttention], [MultiHeadAttention],
    [PoswiseFeedForwardNet], [Multi_Heads] and the backbone wrapper
    [CIF_Multihead].

    Modelling conventions.
    - A tensor is what torch stores: its sizes and its elements in
      row-major order.  The rank is part of the type ([Tensor2],
      [Tensor3], [Tensor4]), following the docstrings of the source, which
      fix the rank of every argument.
    - float32 arithmetic is idealised as arithmetic over the real numbers
      (Stdlib [R]): rounding, overflow and NaN are not modelled.  Every
      statement about shapes and errors is independent of this choice,
      because sizes and errors are computed from sizes only.  What holds
      by a law of the reals that float32 lacks is kept apart, in the last
      part (Exact arithmetic).
    - The scores that [do_test] compares are floats with their NaN, since
      a NaN decides which line raises.
    - A Python exception is a value of [exn]; a computation that may raise
      returns a [result].
    - A Python dict with string keys is a [gmap string _]. *)

From Stdlib Require Import Reals Lra Lia List Arith Permutation Bool.
From stdpp Require Import gmap strings.
Import ListNotations.

(** ** Exceptions and results *)

(** The exceptions the modelled code can raise.  torch reports every shape
    problem as a [RuntimeError]; the argument records which check failed. *)
Inductive shape_check :=
| DimMismatch      (* operand sizes of matmul / linear / add / layer_norm disagree *)
| InvalidShape     (* reshape/view to a shape with another number of elements *)
| AmbiguousShape.  (* reshape/view with -1 while the other sizes multiply to 0 *)

Inductive exn :=
| RuntimeError (c : shape_check)
| KeyError (key : string)
| AttributeError (attr : string)
| AssertionError.

Inductive result (A : Type) :=
| Ok (a : A)
| Raise (e : exn).
Arguments Ok {A} a.
Arguments Raise {A} e.

Definition bind {A B} (r : result A) (k : A -> result B) : result B :=
  match r with
  | Ok a => k a
  | Raise e => Raise e
  end.

Definition rmap {A B} (f : A -> B) (r : result A) : result B :=
  bind r (fun a => Ok (f a)).

Declare Scope result_scope.
Delimit Scope result_scope with result.
Notation "'do' x <- r ; k" := (bind r (fun x => k))
  (at level 10, x name, r at level 100, k at level 200) : result_scope.
Local Open Scope result_scope.

(** ** Sums of reals *)

Definition Rsum (l : list R) : R := fold_right Rplus 0%R l.

(** [sum_n n f] is f 0 + ... + f (n-1). *)
Definition sum_n (n : nat) (f : nat -> R) : R := Rsum (map f (seq 0 n)).

(** ** Row-major storage *)

Module Torch.

(** The sizes along the axes ([a0], [a1], [a2] of a 3-d tensor, [b0] to
    [b3] of a 4-d tensor) and the elements, last axis fastest. *)
Record Tensor2 := T2 { rows : nat; cols : nat; dat2 : list R }.
Record Tensor3 := T3 { a0 : nat; a1 : nat; a2 : nat; dat3 : list R }.
Record Tensor4 := T4 { b0 : nat; b1 : nat; b2 : nat; b3 : nat; dat4 : list R }.

Definition shape3 (t : Tensor3) : list nat := [a0 t; a1 t; a2 t].
Definition shape4 (t : Tensor4) : list nat := [b0 t; b1 t; b2 t; b3 t].

Definition numel (shape : list nat) : nat := fold_right Nat.mul 1 shape.

(** Element access, [t[i, j]], [t[b, i, j]], [t[b, h, i, j]]. *)
Definition get2 (t : Tensor2) (i j : nat) : R :=
  nth (i * cols t + j) (dat2 t) 0%R.
Definition get3 (t : Tensor3) (b i j : nat) : R :=
  nth ((b * a1 t + i) * a2 t + j) (dat3 t) 0%R.
Definition get4 (t : Tensor4) (b h i j : nat) : R :=
  nth (((b * b1 t + h) * b2 t + i) * b3 t + j) (dat4 t) 0%R.

(** Building the storage of a tensor from its elements. *)
Definition fill1 (n : nat) (f : nat -> R) : list R := map f (seq 0 n).
Definition fill2 (n m : nat) (f : nat -> nat -> R) : list R :=
  flat_map (fun i => fill1 m (f i)) (seq 0 n).
Definition fill3 (n m p : nat) (f : nat -> nat -> nat -> R) : list R :=
  flat_map (fun i => fill2 m p (f i)) (seq 0 n).
Definition fill4 (n m p q : nat) (f : nat -> nat -> nat -> nat -> R) : list R :=
  flat_map (fun i => fill3 m p q (f i)) (seq 0 n).

Definition tab2 n m f : Tensor2 := T2 n m (fill2 n m f).
Definition tab3 n m p f : Tensor3 := T3 n m p (fill3 n m p f).
Definition tab4 n m p q f : Tensor4 := T4 n m p q (fill4 n m p q f).

(** *** Shape inference of [view] and [reshape]

    A requested size is [Some n] or [None] for Python's [-1].  This follows
    torch's rule: at most one size may be inferred; the element count must
    be kept; and when the given sizes multiply to 0 the inferred one is
    ambiguous and torch refuses. *)
Definition known_size (shape : list (option nat)) : nat :=
  numel (map (fun d => match d with Some n => n | None => 1 end) shape).

Definition inferred (shape : list (option nat)) : nat :=
  length (List.filter (fun d => match d with None => true | Some _ => false end) shape).

Definition infer_size (shape : list (option nat)) (n : nat) : result (list nat) :=
  let newsize := known_size shape in
  match inferred shape with
  | 0 =>
      if n =? newsize
      then Ok (map (fun d => match d with Some k => k | None => 0 end) shape)
      else Raise (RuntimeError InvalidShape)
  | 1 =>
      if (n =? newsize) || ((0 <? newsize) && (n mod newsize =? 0))
      then if newsize =? 0 then Raise (RuntimeError AmbiguousShape)
           else Ok (map (fun d => match d with Some k => k | None => n / newsize end) shape)
      else Raise (RuntimeError InvalidShape)
  | _ => Raise (RuntimeError InvalidShape)
  end.

(** [x.reshape(d0, d1, d2)] of a 4-d tensor and [x.reshape(d0, d1, d2, d3)]
    of a 3-d tensor, [x.view(d0, d1, d2, d3)] of a 3-d tensor: the storage
    is kept, the sizes change. *)
Definition reshape_4_3 (x : Tensor4) (d0 d1 d2 : option nat) : result Tensor3 :=
  do s <- infer_size [d0; d1; d2] (numel (shape4 x));
  Ok (T3 (nth 0 s 0) (nth 1 s 0) (nth 2 s 0) (dat4 x)).

Definition reshape_3_4 (x : Tensor3) (d0 d1 d2 d3 : option nat) : result Tensor4 :=
  do s <- infer_size [d0; d1; d2; d3] (numel (shape3 x));
  Ok (T4 (nth 0 s 0) (nth 1 s 0) (nth 2 s 0) (nth 3 s 0) (dat3 x)).

Definition view_3_4 := reshape_3_4.

(** [x.permute(0, 2, 1)] *)
Definition permute_0_2_1 (x : Tensor3) : Tensor3 :=
  tab3 (a0 x) (a2 x) (a1 x) (fun b i j => get3 x b j i).

(** [x.transpose(1, 2)] of a 4-d tensor *)
Definition transpose_1_2 (x : Tensor4) : Tensor4 :=
  tab4 (b0 x) (b2 x) (b1 x) (b3 x) (fun b i h j => get4 x b h i j).

(** [x.transpose(-1, -2)] of a 4-d tensor *)
Definition transpose_last (x : Tensor4) : Tensor4 :=
  tab4 (b0 x) (b1 x) (b3 x) (b2 x) (fun b h i j => get4 x b h j i).

(** Broadcasting of one dimension: equal sizes, or one of them is 1. *)
Definition bdim (n m : nat) : option nat :=
  if n =? m then Some n
  else if n =? 1 then Some m
  else if m =? 1 then Some n
  else None.

(** The index read in an operand of size [n] along a broadcast dimension. *)
Definition bidx (n i : nat) : nat := if n =? 1 then 0 else i.

(** [torch.matmul(x, y)] of two 4-d tensors: a batch of matrix products,
    the two leading dimensions being broadcast. *)
Definition matmul (x y : Tensor4) : result Tensor4 :=
  match bdim (b0 x) (b0 y), bdim (b1 x) (b1 y) with
  | Some n0, Some n1 =>
      if b3 x =? b2 y
      then Ok (tab4 n0 n1 (b2 x) (b3 y) (fun b h i j =>
                 sum_n (b3 x) (fun k =>
                   get4 x (bidx (b0 x) b) (bidx (b1 x) h) i k *
                   get4 y (bidx (b0 y) b) (bidx (b1 y) h) k j)%R))
      else Raise (RuntimeError DimMismatch)
  | _, _ => Raise (RuntimeError DimMismatch)
  end.

(** [x / s] for a scalar [s] *)
Definition div_scalar (x : Tensor4) (s : R) : Tensor4 :=
  tab4 (b0 x) (b1 x) (b2 x) (b3 x) (fun b h i j => (get4 x b h i j / s)%R).

(** [nn.Softmax(dim=-1)(x)] *)
Definition softmax_last (x : Tensor4) : Tensor4 :=
  tab4 (b0 x) (b1 x) (b2 x) (b3 x) (fun b h i j =>
    (exp (get4 x b h i j) / sum_n (b3 x) (fun k => exp (get4 x b h i k)))%R).

(** [x + y] of two 3-d tensors, with broadcasting *)
Definition add (x y : Tensor3) : result Tensor3 :=
  match bdim (a0 x) (a0 y), bdim (a1 x) (a1 y), bdim (a2 x) (a2 y) with
  | Some n0, Some n1, Some n2 =>
      Ok (tab3 n0 n1 n2 (fun b i j =>
            (get3 x (bidx (a0 x) b) (bidx (a1 x) i) (bidx (a2 x) j) +
             get3 y (bidx (a0 y) b) (bidx (a1 y) i) (bidx (a2 y) j))%R))
  | _, _, _ => Raise (RuntimeError DimMismatch)
  end.

(** [nn.ReLU()(x)] *)
Definition relu (x : Tensor3) : Tensor3 :=
  tab3 (a0 x) (a1 x) (a2 x) (fun b i j => Rmax 0 (get3 x b i j)).

(** [nn.Linear(in_features, out_features, bias=False)]: the weight has
    shape (out_features, in_features). *)
Record Linear := { weight : Tensor2 }.

Definition in_features (l : Linear) : nat := cols (weight l).
Definition out_features (l : Linear) : nat := rows (weight l).

(** The constructor draws the weight from an initialiser [w]. *)
Definition Linear_init (in_f out_f : nat) (w : nat -> nat -> R) : Linear :=
  {| weight := tab2 out_f in_f w |}.

(** [y = x Wᵗ], applied along the last dimension. *)
Definition Linear_forward (l : Linear) (x : Tensor3) : result Tensor3 :=
  if a2 x =? in_features l
  then Ok (tab3 (a0 x) (a1 x) (out_features l) (fun b i o =>
             sum_n (in_features l) (fun k => (get3 x b i k * get2 (weight l) o k)%R)))
  else Raise (RuntimeError DimMismatch).

(** [nn.LayerNorm(normalized_shape)] with its learned scale and shift. *)
Record LayerNorm := {
  normalized_shape : nat;
  ln_weight : list R;
  ln_bias : list R;
  eps : R
}.

Definition LayerNorm_init (d : nat) : LayerNorm :=
  {| normalized_shape := d;
     ln_weight := repeat 1%R d;
     ln_bias := repeat 0%R d;
     eps := (1 / 100000)%R |}.

Definition mean (n : nat) (f : nat -> R) : R := (sum_n n f / INR n)%R.

(** Normalisation over the last dimension, with the biased variance. *)
Definition LayerNorm_forward (l : LayerNorm) (x : Tensor3) : result Tensor3 :=
  if a2 x =? normalized_shape l
  then Ok (tab3 (a0 x) (a1 x) (a2 x) (fun b i j =>
             let mu := mean (a2 x) (fun k => get3 x b i k) in
             let var := mean (a2 x) (fun k => ((get3 x b i k - mu) * (get3 x b i k - mu))%R) in
             ((get3 x b i j - mu) / sqrt (var + eps l) * nth j (ln_weight l) 0
              + nth j (ln_bias l) 0)%R))
  else Raise (RuntimeError DimMismatch).

End Torch.

Import Torch.

(** ** The attention modules *)

Module ScaledDotProductAttention.

(** [forward(self, Q, K, V, d_k)], lines 16-26.  The module has no
    parameters, so [self] carries nothing. *)
Definition forward (Q K V : Tensor4) (d_k : R) : result Tensor4 :=
  do qk <- matmul Q (transpose_last K);
  let scores := div_scalar qk (sqrt d_k) in
  let attn := softmax_last scores in
  do context <- matmul attn V;
  Ok context.

(** The tensor [attn] of line 24, for the statements about the weights. *)
Definition attn (Q K : Tensor4) (d_k : R) : result Tensor4 :=
  do qk <- matmul Q (transpose_last K);
  Ok (softmax_last (div_scalar qk (sqrt d_k))).

End ScaledDotProductAttention.

Module MultiHeadAttention.

Record t := {
  d_k : nat;
  d_v : nat;
  n_heads : nat;
  W_Q : Linear;
  W_K : Linear;
  W_V : Linear;
  fc : Linear;
  norm : LayerNorm
}.

(** The initial values of the four projection matrices. *)
Record initial := {
  init_Q : nat -> nat -> R;
  init_K : nat -> nat -> R;
  init_V : nat -> nat -> R;
  init_fc : nat -> nat -> R
}.

(** [__init__(self, d_model=512, d_k=64, d_v=64, n_heads=8)], lines 29-38 *)
Definition init (d_model d_k d_v n_heads : nat) (w : initial) : t :=
  {| d_k := d_k;
     d_v := d_v;
     n_heads := n_heads;
     W_Q := Linear_init d_model (d_k * n_heads) (init_Q w);
     W_K := Linear_init d_model (d_k * n_heads) (init_K w);
     W_V := Linear_init d_model (d_v * n_heads) (init_V w);
     fc := Linear_init (n_heads * d_v) d_model (init_fc w);
     norm := LayerNorm_init d_model |}.

(** [forward(self, input_Q, input_K, input_V)], lines 39-56 *)
Definition forward (self : t) (input_Q input_K input_V : Tensor3) : result Tensor3 :=
  let residual := input_Q in
  let batch_size := a0 input_Q in
  do q <- Linear_forward (W_Q self) input_Q;
  do q <- view_3_4 q (Some batch_size) None (Some (n_heads self)) (Some (d_k self));
  let Q := transpose_1_2 q in
  do k <- Linear_forward (W_K self) input_K;
  do k <- view_3_4 k (Some batch_size) None (Some (n_heads self)) (Some (d_k self));
  let K := transpose_1_2 k in
  do v <- Linear_forward (W_V self) input_V;
  do v <- view_3_4 v (Some batch_size) None (Some (n_heads self)) (Some (d_v self));
  let V := transpose_1_2 v in
  do context <- ScaledDotProductAttention.forward Q K V (INR (d_k self));
  do context <- reshape_4_3 (transpose_1_2 context)
                  (Some batch_size) None (Some (n_heads self * d_v self));
  do output <- Linear_forward (fc self) context;
  do s <- add output residual;
  LayerNorm_forward (norm self) s.

End MultiHeadAttention.

Module PoswiseFeedForwardNet.

(** [self.fc] is [nn.Sequential(Linear, ReLU, Linear)]. *)
Record t := {
  fc_0 : Linear;
  fc_2 : Linear;
  norm : LayerNorm
}.

(** [__init__(self, d_model=512, d_ff=2048)], lines 59-66 *)
Definition init (d_model d_ff : nat) (w0 w2 : nat -> nat -> R) : t :=
  {| fc_0 := Linear_init d_model d_ff w0;
     fc_2 := Linear_init d_ff d_model w2;
     norm := LayerNorm_init d_model |}.

(** [forward(self, inputs)], lines 67-73 *)
Definition forward (self : t) (inputs : Tensor3) : result Tensor3 :=
  let residual := inputs in
  do h <- Linear_forward (fc_0 self) inputs;
  do output <- Linear_forward (fc_2 self) (relu h);
  do s <- add output residual;
  LayerNorm_forward (norm self) s.

End PoswiseFeedForwardNet.

Module Multi_Heads.

Record t := {
  multi_head1 : MultiHeadAttention.t;
  multi_head2 : MultiHeadAttention.t;
  Feed_forward : PoswiseFeedForwardNet.t
}.

Record initial := {
  init_head1 : MultiHeadAttention.initial;
  init_head2 : MultiHeadAttention.initial;
  init_ff0 : nat -> nat -> R;
  init_ff2 : nat -> nat -> R
}.

(** [__init__(self)], lines 76-80: the three members are built with their
    default hyper-parameters. *)
Definition init (w : initial) : t :=
  {| multi_head1 := MultiHeadAttention.init 512 64 64 8 (init_head1 w);
     multi_head2 := MultiHeadAttention.init 512 64 64 8 (init_head2 w);
     Feed_forward := PoswiseFeedForwardNet.init 512 2048 (init_ff0 w) (init_ff2 w) |}.

(** [forward(self, x)], lines 81-91.  Line 88 is a comment in the source:
    [self.Feed_forward] is not applied. *)
Definition forward (self : t) (x : Tensor4) : result Tensor4 :=
  let x_shape := shape4 x in
  do x1 <- reshape_4_3 x (Some (nth 0 x_shape 0)) (Some (nth 1 x_shape 0))
             (Some (nth 2 x_shape 0 * nth 3 x_shape 0));
  let x2 := permute_0_2_1 x1 in
  do x3 <- MultiHeadAttention.forward (multi_head1 self) x2 x2 x2;
  do x4 <- MultiHeadAttention.forward (multi_head2 self) x3 x3 x3;
  let x5 := permute_0_2_1 x4 in
  reshape_3_4 x5 (Some (nth 0 x_shape 0)) (Some (nth 1 x_shape 0))
    (Some (nth 2 x_shape 0)) (Some (nth 3 x_shape 0)).

End Multi_Heads.

(** ** The backbone wrapper *)

(** Modelled from the spec: [ShapeSpec] of [detectron2.layers], whose
    declaration is not among the sources; the spec describes it as the
    metadata pair (channel count, stride) of a named feature map. *)
Record ShapeSpec := { channels : nat; stride : nat }.

(** What a Python callable standing for a backbone may hand back: a bare
    feature map, or a named collection of feature maps. *)
Inductive pyvalue :=
| PyTensor (x : Tensor4)
| PyDict (d : gmap string Tensor4).

(** Modelled from the spec: the object passed as [bottom_up].  The class
    [Backbone] of [.backbone] is not among the sources; the spec gives its
    capability set: [forward] and [output_shape], the latter a mapping from
    names to [ShapeSpec].  [is_Backbone] is the outcome of
    [isinstance(bottom_up, Backbone)]. *)
Record pyobject := {
  is_Backbone : bool;
  py_output_shape : gmap string ShapeSpec;
  py_call : Tensor4 -> result pyvalue
}.

(** [d[key]] on a dict *)
Definition getitem {A} (d : gmap string A) (key : string) : result A :=
  match d !! key with
  | Some a => Ok a
  | None => Raise (KeyError key)
  end.

Module CIF_Multihead.

Record t := {
  strides : nat;
  in_channels : nat;
  features1 : pyobject;
  features2 : Multi_Heads.t
}.

(** [__init__(self, bottom_up)], lines 100-119.  [w] stands for the values
    the freshly built [Multi_Heads()] starts from. *)
Definition init (bottom_up : pyobject) (w : Multi_Heads.initial) : result t :=
  if negb (is_Backbone bottom_up) then Raise AssertionError else
  let input_shape := py_output_shape bottom_up in
  do s <- getitem input_shape "CIF";
  let strides := stride s in
  do c <- getitem input_shape "CIF";
  let in_channels := channels c in
  Ok {| strides := strides;
        in_channels := in_channels;
        features1 := bottom_up;
        features2 := Multi_Heads.init w |}.

(** [self.features2(x)] with whatever [self.features1] returned: the first
    statement of [Multi_Heads.forward] reads [x.shape], an attribute a dict
    does not have. *)
Definition call_features2 (m : Multi_Heads.t) (x : pyvalue) : result Tensor4 :=
  match x with
  | PyTensor x => Multi_Heads.forward m x
  | PyDict _ => Raise (AttributeError "shape")
  end.

(** [forward(self, x)], lines 121-127 *)
Definition forward (self : t) (x : Tensor4) : result (gmap string Tensor4) :=
  do x <- py_call (features1 self) x;
  do x <- call_features2 (features2 self) x;
  Ok {[ "CIF_MultiHead" := x ]}.

(** [output_shape(self)], lines 129-130 *)
Definition output_shape (self : t) : gmap string ShapeSpec :=
  {[ "CIF_MultiHead" := {| channels := in_channels self; stride := strides self |} ]}.

End CIF_Multihead.

(** ** What the spec says the attention computes *)

(** Softmax of the [n] scores [s 0 .. s (n-1)], at position [k]. *)
Definition softmax (n : nat) (s : nat -> R) (k : nat) : R :=
  (exp (s k) / sum_n n (fun j => exp (s j)))%R.

(** The score of a query vector against key number [t]: their dot product
    over the [width] components, divided by [sqrt d_k]. *)
Definition score (width : nat) (q : nat -> R) (K : nat -> nat -> R) (d_k : R) (t : nat) : R :=
  (sum_n width (fun d => q d * K t d) / sqrt d_k)%R.

(** One row of softmax(Q·Kᵗ / sqrt(d_k))·V: the softmax runs over the
    [len_k] keys of one query. *)
Definition attention_row (len_k width : nat) (q : nat -> R) (K V : nat -> nat -> R)
    (d_k : R) (j : nat) : R :=
  sum_n len_k (fun t => softmax len_k (score width q K d_k) t * V t j)%R.

(** The spec's contract of 4.1, for every batch element [b], head [h] and
    query position [i] on its own. *)
Definition attention_spec (Q K V : Tensor4) (d_k : R) : Tensor4 :=
  tab4 (b0 Q) (b1 Q) (b2 Q) (b3 V) (fun b h i j =>
    attention_row (b2 K) (b3 Q) (get4 Q b h i) (get4 K b h) (get4 V b h) d_k j).

(** ** The spec's six steps of [MultiHeadAttention.forward] (4.2) *)

Module Steps.
Import MultiHeadAttention.

(** 1. A projection without bias of token [s] of batch element [b], at
    output component [e]. *)
Definition project (W : Linear) (x : Tensor3) (b s e : nat) : R :=
  sum_n (a2 x) (fun k => get3 x b s k * get2 (weight W) e k)%R.

(** 2. Splitting the embedding axis into heads of [width] components and
    moving the head axis before the token axis. *)
Definition head (width : nat) (p : nat -> nat -> nat -> R) (b h s k : nat) : R :=
  p b s (h * width + k).

(** 3. The attention of 4.1 for one (batch, head) pair. *)
Definition head_context (self : t) (input_Q input_K input_V : Tensor3) (b h s j : nat) : R :=
  attention_row (a1 input_K) (d_k self)
    (head (d_k self) (project (W_Q self) input_Q) b h s)
    (head (d_k self) (project (W_K self) input_K) b h)
    (head (d_v self) (project (W_V self) input_V) b h)
    (INR (d_k self)) j.

(** 4. The head axis moved back after the tokens, then heads and
    per-head components merged into one embedding axis. *)
Definition merged (self : t) (input_Q input_K input_V : Tensor3) : Tensor3 :=
  T3 (a0 input_Q) (a1 input_Q) (n_heads self * d_v self)
     (fill4 (a0 input_Q) (a1 input_Q) (n_heads self) (d_v self)
        (fun b s h j => head_context self input_Q input_K input_V b h s j)).

(** Layer normalisation of one token: zero mean and unit variance up to
    [eps], then the learned scale and shift. *)
Definition normalized (l : LayerNorm) (n : nat) (v : nat -> R) (j : nat) : R :=
  let mu := mean n v in
  let var := mean n (fun k => ((v k - mu) * (v k - mu))%R) in
  ((v j - mu) / sqrt (var + eps l) * nth j (ln_weight l) 0 + nth j (ln_bias l) 0)%R.

(** 5. and 6. The projection back to [d_model], the residual and the
    normalisation over the embedding axis. *)
Definition composition (self : t) (input_Q input_K input_V : Tensor3) : Tensor3 :=
  tab3 (a0 input_Q) (a1 input_Q) (a2 input_Q) (fun b s c =>
    normalized (norm self) (a2 input_Q)
      (fun c' => (project (fc self) (merged self input_Q input_K input_V) b s c'
                  + get3 input_Q b s c')%R) c).

End Steps.

(** ** Configurations *)

(** The sizes [MultiHeadAttention.__init__] gives to the parameters; an
    optimiser changes the values of the parameters, never their sizes. *)
Definition mha_configured (d_model dk dv heads : nat) (m : MultiHeadAttention.t) : bool :=
  (MultiHeadAttention.d_k m =? dk) && (MultiHeadAttention.d_v m =? dv)
  && (MultiHeadAttention.n_heads m =? heads)
  && (in_features (MultiHeadAttention.W_Q m) =? d_model)
  && (out_features (MultiHeadAttention.W_Q m) =? dk * heads)
  && (in_features (MultiHeadAttention.W_K m) =? d_model)
  && (out_features (MultiHeadAttention.W_K m) =? dk * heads)
  && (in_features (MultiHeadAttention.W_V m) =? d_model)
  && (out_features (MultiHeadAttention.W_V m) =? dv * heads)
  && (in_features (MultiHeadAttention.fc m) =? heads * dv)
  && (out_features (MultiHeadAttention.fc m) =? d_model)
  && (normalized_shape (MultiHeadAttention.norm m) =? d_model).

(** The sizes [Multi_Heads.__init__] gives to its two attention blocks. *)
Definition stack_configured (m : Multi_Heads.t) : bool :=
  mha_configured 512 64 64 8 (Multi_Heads.multi_head1 m)
  && mha_configured 512 64 64 8 (Multi_Heads.multi_head2 m).

(** ** Permutations of the token axis *)

(** [p] lists, for every position, the position it reads from. *)
Definition is_permutation (p : list nat) (n : nat) : Prop := Permutation p (seq 0 n).

(** The token sequence [x] with its tokens (axis 1) reordered by [p]. *)
Definition permute_tokens (p : list nat) (x : Tensor3) : Tensor3 :=
  tab3 (a0 x) (a1 x) (a2 x) (fun b s c => get3 x b (nth s p 0) c).

(** The feature map [x] with its flattened height×width positions reordered
    by [p]; batch and channel axes are untouched. *)
Definition permute_positions (p : list nat) (x : Tensor4) : Tensor4 :=
  let flat := T3 (b0 x) (b1 x) (b2 x * b3 x) (dat4 x) in
  T4 (b0 x) (b1 x) (b2 x) (b3 x)
     (dat3 (tab3 (b0 x) (b1 x) (b2 x * b3 x) (fun b c s => get3 flat b c (nth s p 0)))).

(** ** The stack as a composition of its stages *)

(** Lines 83-84: one token per spatial position, its channel vector as the
    embedding. *)
Definition tokens (x : Tensor4) : Tensor3 :=
  permute_0_2_1 (T3 (b0 x) (b1 x) (b2 x * b3 x) (dat4 x)).

(** Line 86 or 87: query, key and value are the same sequence. *)
Definition self_attention (m : MultiHeadAttention.t) (x : Tensor3) : Tensor3 :=
  Steps.composition m x x x.

(** Lines 89-90: back to the spatial layout of height [h] and width [w]. *)
Definition feature_map (h w : nat) (x : Tensor3) : Tensor4 :=
  let y := permute_0_2_1 x in
  T4 (a0 y) (a1 y) h w (dat3 y).

(** ** Concrete modules and inputs *)

Definition zeros : nat -> nat -> R := fun _ _ => 0%R.

Definition zero_heads : MultiHeadAttention.initial :=
  {| MultiHeadAttention.init_Q := zeros; MultiHeadAttention.init_K := zeros;
     MultiHeadAttention.init_V := zeros; MultiHeadAttention.init_fc := zeros |}.

Definition zero_stack : Multi_Heads.initial :=
  {| Multi_Heads.init_head1 := zero_heads; Multi_Heads.init_head2 := zero_heads;
     Multi_Heads.init_ff0 := zeros; Multi_Heads.init_ff2 := zeros |}.

(** [MultiHeadAttention()] and [Multi_Heads()] with all weights zero. *)
Definition default_mha : MultiHeadAttention.t := MultiHeadAttention.init 512 64 64 8 zero_heads.
Definition default_stack : Multi_Heads.t := Multi_Heads.init zero_stack.

(** The same stack with other weights in its feed-forward block. *)
Definition other_stack : Multi_Heads.t :=
  {| Multi_Heads.multi_head1 := Multi_Heads.multi_head1 default_stack;
     Multi_Heads.multi_head2 := Multi_Heads.multi_head2 default_stack;
     Multi_Heads.Feed_forward :=
       PoswiseFeedForwardNet.init 512 2048 (fun _ _ => 1%R) (fun _ _ => 2%R) |}.

(** A small attention block (d_model 4, two heads of width 2) and a
    sequence of three tokens for it. *)
Definition small_mha : MultiHeadAttention.t := MultiHeadAttention.init 4 2 2 2 zero_heads.
Definition small_tokens : Tensor3 := T3 1 3 4 [1; 2; 3; 4; 5; 6; 7; 8; 9; 10; 11; 12]%R.

(** Head-split operands with one batch element, one head, one query of
    width one; one key, or none. *)
Definition one_query : Tensor4 := T4 1 1 1 1 [1%R].
Definition one_key : Tensor4 := T4 1 1 1 1 [1%R].
Definition no_key : Tensor4 := T4 1 1 0 1 [].

(** Token sequences of width 512: one token in a batch of one, and an
    empty batch. *)
Definition one_token : Tensor3 := T3 1 1 512 (repeat 0%R 512).
Definition empty_batch_tokens : Tensor3 := T3 0 1 512 [].

(** Feature maps: 512 channels on 1x2 positions, the same with an empty
    batch, and 256 channels. *)
Definition map_512 : Tensor4 := T4 1 512 1 2 (repeat 0%R 1024).
Definition empty_batch_map : Tensor4 := T4 0 512 1 2 [].
Definition map_256 : Tensor4 := T4 1 256 1 2 (repeat 0%R 512).

(** Upstream backbones: one that names its feature "CIF" in
    [output_shape] and returns a collection without that name from
    [forward]; one whose [output_shape] lacks "CIF". *)
Definition cif_spec : ShapeSpec := {| channels := 512; stride := 32 |}.

Definition upstream_collection : pyobject :=
  {| is_Backbone := true;
     py_output_shape := {[ "CIF" := cif_spec ]};
     py_call := fun x => Ok (PyDict {[ "res5" := x ]}) |}.

Definition upstream_unnamed : pyobject :=
  {| is_Backbone := true;
     py_output_shape := {[ "res5" := cif_spec ]};
     py_call := fun x => Ok (PyTensor x) |}.

(** ** The feed-forward block and further actions on tensors *)

(** The sizes [PoswiseFeedForwardNet.__init__] gives to the parameters. *)
Definition pff_configured (d_model d_ff : nat) (m : PoswiseFeedForwardNet.t) : bool :=
  (in_features (PoswiseFeedForwardNet.fc_0 m) =? d_model)
  && (out_features (PoswiseFeedForwardNet.fc_0 m) =? d_ff)
  && (in_features (PoswiseFeedForwardNet.fc_2 m) =? d_ff)
  && (out_features (PoswiseFeedForwardNet.fc_2 m) =? d_model)
  && (normalized_shape (PoswiseFeedForwardNet.norm m) =? d_model).

(** What lines 71-73 do to one token [v] of width [d]: expand, ReLU,
    contract, add the token, normalise. *)
Definition feed_forward_token (m : PoswiseFeedForwardNet.t) (d : nat) (v : nat -> R)
    (c : nat) : R :=
  Steps.normalized (PoswiseFeedForwardNet.norm m) d
    (fun c' =>
       (sum_n (in_features (PoswiseFeedForwardNet.fc_2 m)) (fun k =>
          Rmax 0 (sum_n (in_features (PoswiseFeedForwardNet.fc_0 m)) (fun j =>
                    v j * get2 (weight (PoswiseFeedForwardNet.fc_0 m)) k j))
          * get2 (weight (PoswiseFeedForwardNet.fc_2 m)) c' k)
        + v c')%R) c.

(** A tensor of torch has as many stored elements as its sizes say. *)
Definition well_formed4 (x : Tensor4) : bool :=
  length (dat4 x) =? b0 x * b1 x * b2 x * b3 x.

(** More concrete modules and inputs. *)
Definition default_pff : PoswiseFeedForwardNet.t :=
  PoswiseFeedForwardNet.init 512 2048 zeros zeros.
Definition small_pff : PoswiseFeedForwardNet.t :=
  PoswiseFeedForwardNet.init 4 8 (fun i j => INR (i + j)) (fun i j => INR (i * j)).

Definition wide_key : Tensor4 := T4 1 1 1 2 [1; 2]%R.
Definition two_tokens : Tensor3 := T3 1 2 512 (repeat 0%R 1024).
Definition small_map : Tensor4 := T4 1 2 1 3 [1; 2; 3; 4; 5; 6]%R.
Definition token_pair : Tensor3 := T3 1 2 4 [1; 2; 3; 4; 1; 2; 3; 4]%R.
Definition two_batches : Tensor3 := T3 2 2 512 (repeat 0%R 2048).

Definition upstream_tensor : pyobject :=
  {| is_Backbone := true;
     py_output_shape := {[ "CIF" := cif_spec ]};
     py_call := fun x => Ok (PyTensor x) |}.

Definition narrow_spec : ShapeSpec := {| channels := 256; stride := 16 |}.

Definition upstream_narrow : pyobject :=
  {| is_Backbone := true;
     py_output_shape := {[ "CIF" := narrow_spec ]};
     py_call := fun x => Ok (PyTensor x) |}.

(** ** The evaluation and training loops (tools/Iron_water.py) *)

Module Iron_water.

(** The exceptions of the two loops: [max()] of an empty sequence, an index
    into an empty array, a division by zero. *)
Inductive py_error :=
| ValueError
| IndexError
| ZeroDivisionError.

Inductive outcome (A : Type) :=
| Done (a : A)
| Fail (e : py_error).
Arguments Done {A} a.
Arguments Fail {A} e.

Definition and_then {A B} (r : outcome A) (k : A -> outcome B) : outcome B :=
  match r with
  | Done a => k a
  | Fail e => Fail e
  end.

(** A score is a float32 as Python compares it: [NaN], with which every
    comparison is false, or a number.  [Num] stands for every float that is
    not NaN, the order of the reals for the order of these floats. *)
Inductive score :=
| NaN
| Num (r : R).

(** [x > m] and [x == m] on two floats. *)
Definition score_gt (x m : score) : bool :=
  match x, m with
  | Num a, Num b => if Rlt_dec b a then true else false
  | _, _ => false
  end.

Definition score_eq (x m : score) : bool :=
  match x, m with
  | Num a, Num b => if Req_dec_T a b then true else false
  | _, _ => false
  end.

(** One pass of the loop of lines 28-32 sees the first row of the model's
    output, [inference_result[0]], and the label of the item, already
    converted by [int(float(...))]. *)
Record item := { scores : list score; label : Z }.

(** Python's [max(row)]: the first element, replaced by every later
    element [x] for which [x > max] holds. *)
Fixpoint max_from (m : score) (row : list score) : score :=
  match row with
  | [] => m
  | x :: row => max_from (if score_gt x m then x else m) row
  end.

Definition py_max (row : list score) : outcome score :=
  match row with
  | [] => Fail ValueError
  | x :: row => Done (max_from x row)
  end.

(** [np.where(row == m)[0]]: the indices of the elements equal to [m], in
    ascending order, counted from [i]. *)
Fixpoint where_eq (m : score) (row : list score) (i : nat) : list nat :=
  match row with
  | [] => []
  | x :: row => if score_eq x m then i :: where_eq m row (S i) else where_eq m row (S i)
  end.

(** Lines 30-31: [np.where(row == max(row))[0][0]]. *)
Definition predict (row : list score) : outcome nat :=
  and_then (py_max row) (fun m =>
    match where_eq m row 0 with
    | [] => Fail IndexError
    | i :: _ => Done i
    end).

(** The loop of lines 28-32, appending to [result_list] and [label_list]. *)
Fixpoint collect (test_data : list item) (result_list : list nat) (label_list : list Z)
    : outcome (list nat * list Z) :=
  match test_data with
  | [] => Done (result_list, label_list)
  | data :: test_data =>
      and_then (predict (scores data)) (fun result =>
        collect test_data (result_list ++ [result]) (label_list ++ [label data]))
  end.

(** Lines 33-36: the loop over [range(0, len(label_list), 1)]. *)
Definition count_correct (result_list : list nat) (label_list : list Z) : nat :=
  fold_left (fun correct i =>
               if Z.eqb (Z.of_nat (nth i result_list 0)) (nth i label_list 0%Z)
               then correct + 1 else correct)
            (seq 0 (length label_list)) 0.

(** Line 37: [correct / len(label_list)]. *)
Definition divide (correct n : nat) : outcome R :=
  if n =? 0 then Fail ZeroDivisionError else Done (INR correct / INR n)%R.

(** Lines 48-56, for one class [i]: two indicators are appended per item;
    the lists are those of the previous classes, they are not emptied. *)
Definition append_indicators (i : Z) (result_list : list nat) (label_list : list Z)
    (ap_label ap_result : list Z) : list Z * list Z :=
  fold_left (fun st j =>
               (fst st ++ [if Z.eqb (nth j label_list 0%Z) i then 1%Z else 0%Z],
                snd st ++ [if Z.eqb (Z.of_nat (nth j result_list 0)) i then 1%Z else 0%Z]))
            (seq 0 (length label_list)) (ap_label, ap_result).

(** What the loops print. *)
Record report := {
  accuracy : R;
  micro_f1_score : R;
  macro_f1_score : R;
  ap_list : list R;
  mAP : R
}.

Section Sklearn.

(** [sklearn.metrics.f1_score] and [average_precision_score]. *)
Variable f1_score : list Z -> list nat -> string -> R.
Variable average_precision_score : list Z -> list Z -> R.

(** Lines 44-58: the loop over the classes [range(0, 10, 1)]. *)
Definition ap_loop (classes : list Z) (result_list : list nat) (label_list : list Z)
    (ap_label ap_result : list Z) (ap_list : list R) : list Z * list Z * list R :=
  fold_left (fun st i =>
               let '(ap_label, ap_result, ap_list) := st in
               let '(ap_label, ap_result) :=
                 append_indicators i result_list label_list ap_label ap_result in
               (ap_label, ap_result, ap_list ++ [average_precision_score ap_label ap_result]))
            classes (ap_label, ap_result, ap_list).

(** [numpy.mean] of a list. *)
Definition mean (l : list R) : R := (Rsum l / INR (length l))%R.

(** [do_test], lines 21-61, from the loaded data on. *)
Definition do_test (test_data : list item) : outcome report :=
  and_then (collect test_data [] []) (fun lists =>
    let '(result_list, label_list) := lists in
    let correct := count_correct result_list label_list in
    and_then (divide correct (length label_list)) (fun accuracy =>
      let micro := f1_score label_list result_list "micro" in
      let macro := f1_score label_list result_list "macro" in
      let '(_, _, ap_list) :=
        ap_loop (map Z.of_nat (seq 0 10)) result_list label_list [] [] [] in
      Done {| accuracy := accuracy;
              micro_f1_score := micro;
              macro_f1_score := macro;
              ap_list := ap_list;
              mAP := mean ap_list |})).

End Sklearn.

(** The calls [do_train] makes, in order. *)
Inductive event :=
| SetIter (iteration : Z)
| Forward (data : nat)
| ZeroGrad
| Backward
| OptimizerStep
| PutScalar (name : string)
| SchedulerStep
| WriterWrite (writer : nat)
| Print (iteration : Z)
| CheckpointStep (iteration : Z).

(** Line 70: [checkpoint.get("iteration", -1) + 1]. *)
Definition start_iter_of (checkpoint : gmap string Z) : Z :=
  (match checkpoint !! "iteration" with Some i => i | None => -1 end + 1)%Z.

(** The condition of line 92. *)
Definition logs (iteration start_iter max_iter : Z) : bool :=
  (5 <? iteration - start_iter)%Z
  && ((((iteration + 1) mod 20) =? 0)%Z || (iteration =? max_iter - 1)%Z).

(** The body of the loop, lines 81-97. *)
Definition train_step (writers : list nat) (start_iter max_iter : Z) (data : nat)
    (iteration : Z) : list event :=
  [SetIter iteration; Forward data; ZeroGrad; Backward; OptimizerStep;
   PutScalar "lr"; SchedulerStep; PutScalar "loss"]
  ++ (if logs iteration start_iter max_iter
      then map WriterWrite writers ++ [Print iteration] else [])
  ++ [CheckpointStep iteration].

(** Line 80: [zip(train_data, range(start_iter, max_iter))] ends with the
    shorter of the two. *)
Fixpoint train_loop (writers : list nat) (start_iter max_iter : Z)
    (train_data : list nat) (iteration : Z) : list event :=
  match train_data with
  | [] => []
  | data :: train_data =>
      if (iteration <? max_iter)%Z
      then train_step writers start_iter max_iter data iteration
           ++ train_loop writers start_iter max_iter train_data (iteration + 1)
      else []
  end.

(** [do_train], lines 65-97, from the loaded checkpoint on. *)
Definition do_train (checkpoint : gmap string Z) (max_iter : Z) (writers : list nat)
    (train_data : list nat) : list event :=
  let start_iter := start_iter_of checkpoint in
  train_loop writers start_iter max_iter train_data start_iter.

(** [writer.write()] takes no argument: a writer reads the iteration of
    the event storage, which line 81 sets.  [written_from current trace]
    pairs every write of the trace with the iteration the storage holds at
    that moment, [current] being the one it holds at the start. *)
Fixpoint written_from (current : Z) (trace : list event) : list (Z * nat) :=
  match trace with
  | [] => []
  | SetIter iteration :: trace => written_from iteration trace
  | WriterWrite writer :: trace => (current, writer) :: written_from current trace
  | _ :: trace => written_from current trace
  end.

(** The iterations at which the checkpointer is stepped, and those that
    are printed. *)
Definition checkpointed (trace : list event) : list Z :=
  flat_map (fun e => match e with CheckpointStep i => [i] | _ => [] end) trace.

Definition printed (trace : list event) : list Z :=
  flat_map (fun e => match e with Print i => [i] | _ => [] end) trace.

(** The rows on which lines 30-31 return: those that begin with a number. *)
Definition numeric_head (row : list score) : bool :=
  match row with
  | Num _ :: _ => true
  | _ => false
  end.

(** What [do_test] is compared with: the class predicted for an item, and
    whether it is the label. *)
Definition predicted (data : item) : nat :=
  match predict (scores data) with Done i => i | Fail _ => 0 end.

Definition hit (data : item) : bool := Z.eqb (Z.of_nat (predicted data)) (label data).

Definition is_label (data : item) (c : Z) : bool := Z.eqb (label data) c.
Definition is_predicted (data : item) (c : Z) : bool := Z.eqb (Z.of_nat (predicted data)) c.

(** The indicators of the classes 0 to [i], class after class. *)
Definition indicators_up_to {A} (is_class : A -> Z -> bool) (l : list A) (i : nat) : list Z :=
  flat_map (fun c => map (fun a => if is_class a c then 1%Z else 0%Z) l)
           (map Z.of_nat (seq 0 (S i))).

(** Stand-ins for the two functions of sklearn, and a test set. *)
Definition share_of_ones (l : list Z) (_ : list Z) : R :=
  (INR (length (List.filter (Z.eqb 1) l)) / INR (length l))%R.
Definition no_f1 (_ : list Z) (_ : list nat) (_ : string) : R := 0%R.

Definition three_items : list item :=
  [ {| scores := [Num 1; Num 3; Num 2]; label := 1%Z |};
    {| scores := [Num 2; Num 2; Num 1]; label := 1%Z |};
    {| scores := [Num 0; NaN; Num 5]; label := 2%Z |} ].

(** Checkpoints and batches for [do_train]. *)
Definition fresh_checkpoint : gmap string Z := ∅.
Definition last_checkpoint : gmap string Z := {[ "iteration" := 99%Z ]}.
Definition seven_batches : list nat := [0; 1; 2; 3; 4; 5; 6].

End Iron_water.

(** An item without scores, the default of list accesses. *)
Definition no_item : Iron_water.item := {| Iron_water.scores := []; Iron_water.label := 0 |}.

(** * Properties *)

(** ** Sums *)

Lemma sum_n_ext (n : nat) (f g : nat -> R) :
  (forall k, k < n -> f k = g k) -> sum_n n f = sum_n n g.
Proof.
  intros Hfg. unfold sum_n. f_equal. apply map_ext_in.
  intros k Hk. apply in_seq in Hk. apply Hfg. lia.
Qed.

Lemma Rsum_Permutation (l l' : list R) : Permutation l l' -> Rsum l = Rsum l'.
Proof.
  induction 1 as [| x l l' _ IH | x y l | l l' l'' _ IH1 _ IH2]; simpl.
  - reflexivity.
  - now rewrite IH.
  - lra.
  - now rewrite IH1.
Qed.

Lemma map_nth_seq (p : list nat) : map (fun i => nth i p 0) (seq 0 (length p)) = p.
Proof.
  induction p as [| a p IH]; simpl; [reflexivity |].
  f_equal. rewrite <- seq_shift, map_map. exact IH.
Qed.

Lemma is_permutation_length (p : list nat) (n : nat) : is_permutation p n -> length p = n.
Proof.
  intros Hp. apply Permutation_length in Hp. now rewrite length_seq in Hp.
Qed.

Lemma is_permutation_lt (p : list nat) (n i : nat) :
  is_permutation p n -> i < n -> nth i p 0 < n.
Proof.
  intros Hp Hi. pose proof (is_permutation_length _ _ Hp) as Hlen.
  assert (Hin : In (nth i p 0) p) by (apply nth_In; lia).
  eapply Permutation_in in Hin; [| exact Hp]. apply in_seq in Hin. lia.
Qed.

(** Reading the terms of a sum through a permutation does not change it. *)
Lemma sum_n_reindex (p : list nat) (n : nat) (f : nat -> R) :
  is_permutation p n -> sum_n n (fun i => f (nth i p 0)) = sum_n n f.
Proof.
  intros Hp. unfold sum_n. pose proof (is_permutation_length _ _ Hp) as Hlen.
  rewrite <- (map_map (fun i => nth i p 0) f). rewrite <- Hlen at 1.
  rewrite map_nth_seq. apply Rsum_Permutation. now apply Permutation_map.
Qed.

Lemma Rsum_scal (c : R) (l : list R) : Rsum (map (fun x => x / c)%R l) = (Rsum l / c)%R.
Proof.
  induction l as [| x l IH]; simpl.
  - unfold Rdiv. now rewrite Rmult_0_l.
  - rewrite IH. unfold Rdiv. ring.
Qed.

Lemma Rsum_exp_pos (l : list R) : l <> [] -> (0 < Rsum (map exp l))%R.
Proof.
  induction l as [| x l IH]; [congruence |]. intros _. simpl.
  pose proof (exp_pos x). destruct l as [| y l].
  - simpl. lra.
  - assert (0 < Rsum (map exp (y :: l)))%R by (apply IH; congruence). lra.
Qed.

(** A softmax over at least one score sums to one. *)
Lemma softmax_sums_to_one (n : nat) (s : nat -> R) :
  0 < n -> sum_n n (softmax n s) = 1%R.
Proof.
  intros Hn. unfold softmax, sum_n.
  set (l := map s (seq 0 n)).
  assert (Hl : l <> []).
  { unfold l. destruct n; [lia |]. simpl. congruence. }
  assert (Hden : map (fun j => exp (s j)) (seq 0 n) = map exp l)
    by (unfold l; now rewrite map_map).
  rewrite Hden.
  rewrite <- (map_map (fun k => exp (s k)) (fun e => e / Rsum (map exp l))%R).
  rewrite Hden, Rsum_scal. apply Rsum_exp_pos in Hl. field. lra.
Qed.

(** ** Storage *)

Lemma offset_lt (n m i j : nat) : i < n -> j < m -> i * m + j < n * m.
Proof. intros Hi Hj. nia. Qed.

Section Blocks.
Variable g : nat -> list R.
Variable m : nat.

Lemma length_blocks (s n : nat) :
  (forall k, s <= k < s + n -> length (g k) = m) ->
  length (flat_map g (seq s n)) = n * m.
Proof.
  revert s. induction n as [| n IH]; intros s Hg; simpl; [reflexivity |].
  rewrite length_app, Hg by lia. rewrite IH; [lia |].
  intros k Hk. apply Hg. lia.
Qed.

(** Element [j] of block [i] sits at offset [i * m + j]. *)
Lemma nth_blocks (s n i j : nat) (d : R) :
  (forall k, s <= k < s + n -> length (g k) = m) ->
  i < n -> j < m ->
  nth (i * m + j) (flat_map g (seq s n)) d = nth j (g (s + i)) d.
Proof.
  revert s i. induction n as [| n IH]; intros s i Hg Hi Hj; [lia |].
  simpl. destruct i as [| i].
  - rewrite app_nth1 by (rewrite Hg; lia). now rewrite Nat.add_0_r.
  - rewrite app_nth2 by (rewrite Hg; lia). rewrite Hg by lia.
    replace (S i * m + j - m) with (i * m + j) by lia.
    rewrite IH; [| intros k Hk; apply Hg; lia | lia | lia].
    f_equal. f_equal. lia.
Qed.
End Blocks.

Lemma flat_map_ext_in (f g : nat -> list R) (l : list nat) :
  (forall i, In i l -> f i = g i) -> flat_map f l = flat_map g l.
Proof.
  induction l as [| a l IH]; intros Hfg; simpl; [reflexivity |].
  rewrite Hfg by now left. rewrite IH; [reflexivity |].
  intros i Hi. apply Hfg. now right.
Qed.

Lemma length_fill1 n f : length (fill1 n f) = n.
Proof. unfold fill1. now rewrite length_map, length_seq. Qed.

Lemma length_fill2 n m f : length (fill2 n m f) = n * m.
Proof. apply length_blocks. intros. apply length_fill1. Qed.

Lemma length_fill3 n m p f : length (fill3 n m p f) = n * (m * p).
Proof. apply length_blocks. intros. apply length_fill2. Qed.

Lemma length_fill4 n m p q f : length (fill4 n m p q f) = n * (m * (p * q)).
Proof. apply length_blocks. intros. apply length_fill3. Qed.

Lemma nth_fill1 n f j : j < n -> nth j (fill1 n f) 0%R = f j.
Proof.
  intros Hj. unfold fill1.
  rewrite nth_indep with (d' := f 0) by now rewrite length_map, length_seq.
  rewrite (map_nth f). now rewrite seq_nth.
Qed.

Lemma nth_fill2 n m f i j :
  i < n -> j < m -> nth (i * m + j) (fill2 n m f) 0%R = f i j.
Proof.
  intros Hi Hj. unfold fill2.
  rewrite nth_blocks with (m := m); auto using length_fill1.
  now apply nth_fill1.
Qed.

Lemma nth_fill3 n m p f i j k :
  i < n -> j < m -> k < p ->
  nth ((i * m + j) * p + k) (fill3 n m p f) 0%R = f i j k.
Proof.
  intros Hi Hj Hk. unfold fill3.
  replace ((i * m + j) * p + k) with (i * (m * p) + (j * p + k)) by lia.
  rewrite nth_blocks with (m := m * p); auto using length_fill2, offset_lt.
  now apply nth_fill2.
Qed.

Lemma nth_fill4 n m p q f i j k l :
  i < n -> j < m -> k < p -> l < q ->
  nth (((i * m + j) * p + k) * q + l) (fill4 n m p q f) 0%R = f i j k l.
Proof.
  intros Hi Hj Hk Hl. unfold fill4.
  replace (((i * m + j) * p + k) * q + l)
    with (i * (m * (p * q)) + ((j * p + k) * q + l)) by lia.
  rewrite nth_blocks with (m := m * (p * q)); auto using length_fill3.
  - now apply nth_fill3.
  - rewrite Nat.mul_assoc. auto using offset_lt.
Qed.

(** Row-major order on small tensors. *)
Example permute_2_by_3 :
  dat3 (permute_0_2_1 (T3 1 2 3 [1; 2; 3; 4; 5; 6]%R)) = [1; 4; 2; 5; 3; 6]%R.
Proof. reflexivity. Qed.

Example transpose_heads_2_by_2 :
  dat4 (transpose_1_2 (T4 1 2 2 1 [1; 2; 3; 4]%R)) = [1; 3; 2; 4]%R.
Proof. reflexivity. Qed.

Example read_after_permute :
  get3 (permute_0_2_1 (T3 1 2 3 [1; 2; 3; 4; 5; 6]%R)) 0 2 1 = 6%R.
Proof. reflexivity. Qed.

Lemma get2_tab2 n m f i j : i < n -> j < m -> get2 (tab2 n m f) i j = f i j.
Proof. intros. unfold get2, tab2. simpl. now apply nth_fill2. Qed.

Lemma get3_tab3 n m p f b i j :
  b < n -> i < m -> j < p -> get3 (tab3 n m p f) b i j = f b i j.
Proof. intros. unfold get3, tab3. simpl. now apply nth_fill3. Qed.

Lemma get4_tab4 n m p q f b h i j :
  b < n -> h < m -> i < p -> j < q -> get4 (tab4 n m p q f) b h i j = f b h i j.
Proof. intros. unfold get4, tab4. simpl. now apply nth_fill4. Qed.

Lemma fill1_ext n f g : (forall j, j < n -> f j = g j) -> fill1 n f = fill1 n g.
Proof.
  intros H. unfold fill1. apply map_ext_in. intros j Hj.
  apply in_seq in Hj. apply H. lia.
Qed.

Lemma fill2_ext n m f g :
  (forall i j, i < n -> j < m -> f i j = g i j) -> fill2 n m f = fill2 n m g.
Proof.
  intros H. unfold fill2. apply flat_map_ext_in. intros i Hi.
  apply in_seq in Hi. apply fill1_ext. intros. apply H; lia.
Qed.

Lemma fill3_ext n m p f g :
  (forall i j k, i < n -> j < m -> k < p -> f i j k = g i j k) ->
  fill3 n m p f = fill3 n m p g.
Proof.
  intros H. unfold fill3. apply flat_map_ext_in. intros i Hi.
  apply in_seq in Hi. apply fill2_ext. intros. apply H; lia.
Qed.

Lemma fill4_ext n m p q f g :
  (forall i j k l, i < n -> j < m -> k < p -> l < q -> f i j k l = g i j k l) ->
  fill4 n m p q f = fill4 n m p q g.
Proof.
  intros H. unfold fill4. apply flat_map_ext_in. intros i Hi.
  apply in_seq in Hi. apply fill3_ext. intros. apply H; lia.
Qed.

Lemma tab3_ext n m p f g :
  (forall b i j, b < n -> i < m -> j < p -> f b i j = g b i j) ->
  tab3 n m p f = tab3 n m p g.
Proof. intros H. unfold tab3. f_equal. now apply fill3_ext. Qed.

Lemma tab4_ext n m p q f g :
  (forall b h i j, b < n -> h < m -> i < p -> j < q -> f b h i j = g b h i j) ->
  tab4 n m p q f = tab4 n m p q g.
Proof. intros H. unfold tab4. f_equal. now apply fill4_ext. Qed.

(** ** Broadcasting and shape inference *)

Lemma bdim_same n : bdim n n = Some n.
Proof. unfold bdim. now rewrite Nat.eqb_refl. Qed.

Lemma bidx_lt n i : i < n -> bidx n i = i.
Proof. unfold bidx. intros Hi. destruct (Nat.eqb_spec n 1); lia. Qed.

Lemma reshape_4_3_exact (x : Tensor4) (a b c : nat) :
  b0 x * b1 x * b2 x * b3 x = a * b * c ->
  reshape_4_3 x (Some a) (Some b) (Some c) = Ok (T3 a b c (dat4 x)).
Proof.
  intros H. unfold reshape_4_3, infer_size, known_size, inferred, shape4, numel. simpl.
  replace (b0 x * (b1 x * (b2 x * (b3 x * 1))) =? a * (b * (c * 1))) with true
    by (symmetry; apply Nat.eqb_eq; lia).
  reflexivity.
Qed.

Lemma reshape_3_4_exact (x : Tensor3) (a b c d : nat) :
  a0 x * a1 x * a2 x = a * b * c * d ->
  reshape_3_4 x (Some a) (Some b) (Some c) (Some d) = Ok (T4 a b c d (dat3 x)).
Proof.
  intros H. unfold reshape_3_4, infer_size, known_size, inferred, shape3, numel. simpl.
  replace (a0 x * (a1 x * (a2 x * 1)) =? a * (b * (c * (d * 1)))) with true
    by (symmetry; apply Nat.eqb_eq; lia).
  reflexivity.
Qed.

(** With one [-1], the missing size is found when the given sizes are
    positive... *)
Lemma infer_size_inferred (shape : list (option nat)) (n s : nat) :
  inferred shape = 1 -> 0 < known_size shape -> n = s * known_size shape ->
  infer_size shape n =
  Ok (map (fun d => match d with Some k => k | None => s end) shape).
Proof.
  intros Hone Hpos Hn. unfold infer_size. rewrite Hone.
  assert (Hmod : n mod known_size shape = 0) by (rewrite Hn; apply Nat.Div0.mod_mul).
  assert (Hdiv : n / known_size shape = s) by (rewrite Hn; apply Nat.div_mul; lia).
  replace (0 <? known_size shape) with true by (symmetry; apply Nat.ltb_lt; lia).
  rewrite Hmod, Nat.eqb_refl, orb_true_r.
  replace (known_size shape =? 0) with false by (symmetry; apply Nat.eqb_neq; lia).
  now rewrite Hdiv.
Qed.

(** ... and refused when they multiply to zero and the tensor is empty. *)
Lemma infer_size_ambiguous (shape : list (option nat)) :
  inferred shape = 1 -> known_size shape = 0 ->
  infer_size shape 0 = Raise (RuntimeError AmbiguousShape).
Proof. intros Hone Hz. unfold infer_size. now rewrite Hone, Hz. Qed.

Example infer_tokens : infer_size [Some 2; None; Some 8; Some 64] (2 * 49 * 512) = Ok [2; 49; 8; 64].
Proof. reflexivity. Qed.

Example infer_no_token : infer_size [Some 2; None; Some 8; Some 64] 0 = Ok [2; 0; 8; 64].
Proof. reflexivity. Qed.

Example infer_empty_batch :
  infer_size [Some 0; None; Some 8; Some 64] 0 = Raise (RuntimeError AmbiguousShape).
Proof. reflexivity. Qed.

Example infer_wrong_count :
  infer_size [Some 2; Some 3; Some 4] 25 = Raise (RuntimeError InvalidShape).
Proof. reflexivity. Qed.

Lemma view_3_4_infer (x : Tensor3) (a s c d : nat) :
  a0 x * a1 x * a2 x = a * s * c * d -> 0 < a * c * d ->
  view_3_4 x (Some a) None (Some c) (Some d) = Ok (T4 a s c d (dat3 x)).
Proof.
  intros H Hpos. unfold view_3_4, reshape_3_4.
  rewrite (infer_size_inferred _ _ s); try reflexivity;
    unfold known_size, shape3, numel; simpl; lia.
Qed.

Lemma view_3_4_ambiguous (x : Tensor3) (a c d : nat) :
  a0 x * a1 x * a2 x = 0 -> a * c * d = 0 ->
  view_3_4 x (Some a) None (Some c) (Some d) = Raise (RuntimeError AmbiguousShape).
Proof.
  intros H Hz. unfold view_3_4, reshape_3_4.
  replace (numel (shape3 x)) with 0 by (unfold shape3, numel; simpl; lia).
  rewrite infer_size_ambiguous; try reflexivity.
  unfold known_size, numel; simpl; lia.
Qed.

Lemma reshape_4_3_infer (x : Tensor4) (a s c : nat) :
  b0 x * b1 x * b2 x * b3 x = a * s * c -> 0 < a * c ->
  reshape_4_3 x (Some a) None (Some c) = Ok (T3 a s c (dat4 x)).
Proof.
  intros H Hpos. unfold reshape_4_3.
  rewrite (infer_size_inferred _ _ s); try reflexivity;
    unfold known_size, shape4, numel; simpl; lia.
Qed.

(** ** Scaled dot-product attention *)

Lemma sdpa_forward_attn (Q K V : Tensor4) (d_k : R) :
  ScaledDotProductAttention.forward Q K V d_k =
  (do a <- ScaledDotProductAttention.attn Q K d_k; matmul a V).
Proof.
  unfold ScaledDotProductAttention.forward, ScaledDotProductAttention.attn.
  destruct (matmul Q (transpose_last K)) as [qk | e]; simpl; [| reflexivity].
  now destruct (matmul _ V).
Qed.

(** The closed form of the weights for operands of matching shape. *)
Lemma sdpa_attn_closed (Q K : Tensor4) (d_k : R) :
  b0 K = b0 Q -> b1 K = b1 Q -> b3 K = b3 Q ->
  ScaledDotProductAttention.attn Q K d_k =
  Ok (tab4 (b0 Q) (b1 Q) (b2 Q) (b2 K) (fun b h i t =>
        softmax (b2 K) (score (b3 Q) (get4 Q b h i) (get4 K b h) d_k) t)).
Proof.
  intros H0 H1 H3. unfold ScaledDotProductAttention.attn, matmul. simpl.
  rewrite H0, H1, !bdim_same, H3, Nat.eqb_refl. simpl. f_equal.
  unfold softmax_last, div_scalar. simpl. apply tab4_ext. intros b h i t Hb Hh Hi Ht.
  unfold softmax, score.
  assert (Hs : forall t', t' < b2 K ->
    get4 (tab4 (b0 Q) (b1 Q) (b2 Q) (b2 K) (fun b h i j =>
      (get4 (tab4 (b0 Q) (b1 Q) (b2 Q) (b2 K) (fun b h i j =>
         sum_n (b3 Q) (fun k =>
           (get4 Q (bidx (b0 Q) b) (bidx (b1 Q) h) i k *
            get4 (transpose_last K) (bidx (b0 Q) b) (bidx (b1 Q) h) k j)%R)))
         b h i j / sqrt d_k)%R)) b h i t'
    = (sum_n (b3 Q) (fun d => get4 Q b h i d * get4 K b h t' d) / sqrt d_k)%R).
  { intros t' Ht'. rewrite !get4_tab4 by assumption. f_equal.
    apply sum_n_ext. intros k Hk. rewrite !bidx_lt by assumption. f_equal.
    unfold transpose_last. rewrite get4_tab4; congruence || lia. }
  rewrite Hs by assumption. f_equal. apply sum_n_ext. intros t' Ht'.
  now rewrite Hs.
Qed.

Lemma attention_row_ext (len_k width : nat) (q q' : nat -> R) (K K' V V' : nat -> nat -> R)
    (d_k : R) (j : nat) :
  (forall d, d < width -> q d = q' d) ->
  (forall t d, t < len_k -> d < width -> K t d = K' t d) ->
  (forall t, t < len_k -> V t j = V' t j) ->
  attention_row len_k width q K V d_k j = attention_row len_k width q' K' V' d_k j.
Proof.
  intros Hq HK HV. unfold attention_row.
  assert (Hs : forall t, t < len_k -> score width q K d_k t = score width q' K' d_k t).
  { intros t Ht. unfold score. f_equal. apply sum_n_ext. intros d Hd.
    now rewrite Hq, HK. }
  apply sum_n_ext. intros t Ht. rewrite HV by assumption. f_equal.
  unfold softmax. rewrite Hs by assumption. f_equal.
  apply sum_n_ext. intros t' Ht'. now rewrite Hs.
Qed.

(** The closed form of the context for operands of matching shape. *)
Lemma sdpa_forward_closed (Q K V : Tensor4) (d_k : R) :
  b0 K = b0 Q -> b1 K = b1 Q -> b3 K = b3 Q ->
  b0 V = b0 Q -> b1 V = b1 Q -> b2 V = b2 K ->
  ScaledDotProductAttention.forward Q K V d_k = Ok (attention_spec Q K V d_k).
Proof.
  intros HK0 HK1 HK3 HV0 HV1 HV2.
  rewrite sdpa_forward_attn, sdpa_attn_closed by assumption.
  cbn [bind]. unfold matmul. cbn [b0 b1 b2 b3 tab4].
  rewrite HV0, HV1, HV2, !bdim_same, Nat.eqb_refl. f_equal.
  unfold attention_spec. apply tab4_ext. intros b h i j Hb Hh Hi Hj.
  unfold attention_row. rewrite <- HV2. apply sum_n_ext. intros t Ht.
  rewrite !bidx_lt by assumption. now rewrite get4_tab4 by (assumption || lia).
Qed.

(** ** Multi-head attention *)

Lemma mha_configured_sizes (d_model dk dv heads : nat) (m : MultiHeadAttention.t) :
  mha_configured d_model dk dv heads m = true ->
  MultiHeadAttention.d_k m = dk /\ MultiHeadAttention.d_v m = dv /\
  MultiHeadAttention.n_heads m = heads /\
  in_features (MultiHeadAttention.W_Q m) = d_model /\
  out_features (MultiHeadAttention.W_Q m) = dk * heads /\
  in_features (MultiHeadAttention.W_K m) = d_model /\
  out_features (MultiHeadAttention.W_K m) = dk * heads /\
  in_features (MultiHeadAttention.W_V m) = d_model /\
  out_features (MultiHeadAttention.W_V m) = dv * heads /\
  in_features (MultiHeadAttention.fc m) = heads * dv /\
  out_features (MultiHeadAttention.fc m) = d_model /\
  normalized_shape (MultiHeadAttention.norm m) = d_model.
Proof.
  unfold mha_configured. rewrite !andb_true_iff, !Nat.eqb_eq. tauto.
Qed.

Lemma mha_init_configured (d_model dk dv heads : nat) (w : MultiHeadAttention.initial) :
  mha_configured d_model dk dv heads (MultiHeadAttention.init d_model dk dv heads w) = true.
Proof.
  unfold mha_configured, MultiHeadAttention.init, in_features, out_features. simpl.
  now rewrite !Nat.eqb_refl.
Qed.

Lemma Linear_forward_ok (l : Linear) (x : Tensor3) :
  a2 x = in_features l ->
  Linear_forward l x = Ok (tab3 (a0 x) (a1 x) (out_features l) (Steps.project l x)).
Proof.
  intros H. unfold Linear_forward. rewrite H, Nat.eqb_refl. f_equal.
  apply tab3_ext. intros b i o _ _ _. unfold Steps.project. now rewrite H.
Qed.

Lemma Linear_forward_mismatch (l : Linear) (x : Tensor3) :
  a2 x <> in_features l -> Linear_forward l x = Raise (RuntimeError DimMismatch).
Proof.
  intros H. unfold Linear_forward. now destruct (Nat.eqb_spec (a2 x) (in_features l)).
Qed.

(** Steps 1 and 2 of the spec: a projection, viewed as heads, with the head
    axis moved before the tokens. *)
Lemma transpose_heads (B S H width : nat) (p : nat -> nat -> nat -> R) :
  transpose_1_2 (T4 B S H width (dat3 (tab3 B S (width * H) p))) =
  tab4 B H S width (Steps.head width p).
Proof.
  unfold transpose_1_2. cbn [b0 b1 b2 b3]. apply tab4_ext. intros b h s k Hb Hh Hs Hk.
  unfold get4, Steps.head. cbn [b0 b1 b2 b3 dat4 dat3 tab3].
  replace (((b * S + s) * H + h) * width + k) with ((b * S + s) * (width * H) + (h * width + k)) by lia.
  apply nth_fill3; try assumption. rewrite (Nat.mul_comm width H). now apply offset_lt.
Qed.

Lemma mean_ext (n : nat) (f g : nat -> R) :
  (forall k, k < n -> f k = g k) -> mean n f = mean n g.
Proof. intros H. unfold mean. f_equal. now apply sum_n_ext. Qed.

Lemma normalized_ext (l : LayerNorm) (n : nat) (v v' : nat -> R) (j : nat) :
  (forall k, k < n -> v k = v' k) -> j < n ->
  Steps.normalized l n v j = Steps.normalized l n v' j.
Proof.
  intros H Hj. unfold Steps.normalized. cbv zeta.
  rewrite (mean_ext n v v') by assumption. rewrite (H j) by assumption.
  f_equal. f_equal. f_equal. f_equal. f_equal. apply mean_ext. intros k Hk.
  now rewrite H.
Qed.

(** The context of all heads, merged: steps 3 and 4 of the spec computed
    by the batched call, the transposition and the reshape. *)
Lemma merged_heads (m : MultiHeadAttention.t) (input_Q input_K input_V : Tensor3) :
  a1 input_V = a1 input_K ->
  let B := a0 input_Q in
  let H := MultiHeadAttention.n_heads m in
  let dk := MultiHeadAttention.d_k m in
  let dv := MultiHeadAttention.d_v m in
  let Q := tab4 B H (a1 input_Q) dk (Steps.head dk (Steps.project (MultiHeadAttention.W_Q m) input_Q)) in
  let K := tab4 B H (a1 input_K) dk (Steps.head dk (Steps.project (MultiHeadAttention.W_K m) input_K)) in
  let V := tab4 B H (a1 input_V) dv (Steps.head dv (Steps.project (MultiHeadAttention.W_V m) input_V)) in
  T3 B (a1 input_Q) (H * dv) (dat4 (transpose_1_2 (attention_spec Q K V (INR dk)))) =
  Steps.merged m input_Q input_K input_V.
Proof.
  intros HV1 B H dk dv Q K V. unfold Steps.merged. fold B H dv. f_equal.
  unfold transpose_1_2, attention_spec. cbn [b0 b1 b2 b3 dat4 tab4 Q V K].
  apply fill4_ext. intros b s h j Hb Hs Hh Hj.
  rewrite get4_tab4 by assumption. unfold Steps.head_context. fold dk dv.
  apply attention_row_ext.
  - intros d Hd. unfold Q. now rewrite get4_tab4.
  - intros t d Ht Hd. unfold K. now rewrite get4_tab4.
  - intros t Ht. unfold V. now rewrite get4_tab4 by (assumption || lia).
Qed.

Lemma mul3_pos (a b c : nat) : 0 < a -> 0 < b -> 0 < c -> 0 < a * b * c.
Proof. intros. repeat apply Nat.mul_pos_pos; assumption. Qed.

(** [forward] computes the spec's composition whenever the batch is not
    empty and the sizes agree. *)
Lemma mha_forward_closed (d_model dk dv heads : nat) (m : MultiHeadAttention.t)
    (input_Q input_K input_V : Tensor3) :
  mha_configured d_model dk dv heads m = true ->
  0 < dk -> 0 < dv -> 0 < heads ->
  a2 input_Q = d_model -> a2 input_K = d_model -> a2 input_V = d_model ->
  a0 input_K = a0 input_Q -> a0 input_V = a0 input_Q -> a1 input_V = a1 input_K ->
  0 < a0 input_Q ->
  MultiHeadAttention.forward m input_Q input_K input_V =
  Ok (Steps.composition m input_Q input_K input_V).
Proof.
  intros Hc Hdk Hdv Hh HQ HK HV HK0 HV0 HV1 HB.
  destruct (mha_configured_sizes _ _ _ _ _ Hc)
    as (Edk & Edv & Eh & EQi & EQo & EKi & EKo & EVi & EVo & Efi & Efo & En).
  pose proof (merged_heads m input_Q input_K input_V HV1) as Hmerged.
  cbv zeta in Hmerged.
  unfold MultiHeadAttention.forward. cbv zeta.
  rewrite (Linear_forward_ok (MultiHeadAttention.W_Q m) input_Q) by congruence.
  rewrite (Linear_forward_ok (MultiHeadAttention.W_K m) input_K) by congruence.
  rewrite (Linear_forward_ok (MultiHeadAttention.W_V m) input_V) by congruence.
  cbn [bind].
  rewrite (view_3_4_infer _ _ (a1 input_Q));
    [| cbn [a0 a1 a2 tab3]; rewrite EQo, Eh, Edk; lia
     | rewrite Eh, Edk; now apply mul3_pos ].
  cbn [bind].
  rewrite (view_3_4_infer _ _ (a1 input_K));
    [| cbn [a0 a1 a2 tab3]; rewrite EKo, Eh, Edk, HK0; lia
     | rewrite Eh, Edk; now apply mul3_pos ].
  cbn [bind].
  rewrite (view_3_4_infer _ _ (a1 input_V));
    [| cbn [a0 a1 a2 tab3]; rewrite EVo, Eh, Edv, HV0; lia
     | rewrite Eh, Edv; now apply mul3_pos ].
  cbn [bind].
  rewrite EQo, EKo, EVo, HK0, HV0, <- Eh, <- Edk, <- Edv, !transpose_heads.
  rewrite sdpa_forward_closed by (reflexivity || exact HV1).
  cbn [bind].
  rewrite (reshape_4_3_infer _ _ (a1 input_Q));
    [| reflexivity || (cbn [b0 b1 b2 b3 transpose_1_2 tab4 attention_spec]; lia)
     | rewrite Nat.mul_assoc; apply mul3_pos; congruence ].
  cbn [bind].
  rewrite Hmerged.
  rewrite Linear_forward_ok by (cbn [a2 Steps.merged]; congruence).
  cbn [bind].
  unfold add. cbn [a0 a1 a2 tab3 Steps.merged].
  rewrite Efo, HQ, !bdim_same. cbn [bind].
  unfold LayerNorm_forward. cbn [a0 a1 a2 tab3]. rewrite En, Nat.eqb_refl.
  f_equal. unfold Steps.composition. rewrite HQ.
  apply tab3_ext. intros b s c Hb Hs Hc'.
  match goal with |- _ = Steps.normalized ?l ?n ?v ?j =>
    transitivity (Steps.normalized l n
      (fun k => get3 (tab3 (a0 input_Q) (a1 input_Q) d_model (fun b i j =>
         (get3 (tab3 (a0 input_Q) (a1 input_Q) d_model
                 (Steps.project (MultiHeadAttention.fc m) (Steps.merged m input_Q input_K input_V)))
               (bidx (a0 input_Q) b) (bidx (a1 input_Q) i) (bidx d_model j) +
          get3 input_Q (bidx (a0 input_Q) b) (bidx (a1 input_Q) i) (bidx d_model j))%R)) b s k) j)
  end.
  - reflexivity.
  - apply normalized_ext; [| assumption]. intros k Hk.
    rewrite get3_tab3 by assumption. rewrite !bidx_lt by assumption.
    now rewrite get3_tab3 by assumption.
Qed.

(** ** The attention stack *)

Lemma stack_configured_heads (m : Multi_Heads.t) :
  stack_configured m = true ->
  mha_configured 512 64 64 8 (Multi_Heads.multi_head1 m) = true /\
  mha_configured 512 64 64 8 (Multi_Heads.multi_head2 m) = true.
Proof. unfold stack_configured. now rewrite andb_true_iff. Qed.

Lemma stack_init_configured (w : Multi_Heads.initial) :
  stack_configured (Multi_Heads.init w) = true.
Proof.
  unfold stack_configured, Multi_Heads.init. cbn [Multi_Heads.multi_head1 Multi_Heads.multi_head2].
  now rewrite !mha_init_configured.
Qed.

Lemma stack_to_tokens (m : Multi_Heads.t) (x : Tensor4) :
  Multi_Heads.forward m x =
  (do x3 <- MultiHeadAttention.forward (Multi_Heads.multi_head1 m) (tokens x) (tokens x) (tokens x);
   do x4 <- MultiHeadAttention.forward (Multi_Heads.multi_head2 m) x3 x3 x3;
   reshape_3_4 (permute_0_2_1 x4) (Some (b0 x)) (Some (b1 x)) (Some (b2 x)) (Some (b3 x))).
Proof.
  unfold Multi_Heads.forward. cbv zeta. cbn [shape4 nth].
  rewrite reshape_4_3_exact by lia. reflexivity.
Qed.

(** On a non-empty batch of 512-channel maps the stack is the composition
    of its stages. *)
Lemma stack_forward_closed (m : Multi_Heads.t) (x : Tensor4) :
  stack_configured m = true -> b1 x = 512 -> 0 < b0 x ->
  Multi_Heads.forward m x =
  Ok (feature_map (b2 x) (b3 x)
        (self_attention (Multi_Heads.multi_head2 m)
           (self_attention (Multi_Heads.multi_head1 m) (tokens x)))).
Proof.
  intros Hc HC HB. destruct (stack_configured_heads m Hc) as [H1 H2].
  rewrite stack_to_tokens.
  rewrite (mha_forward_closed 512 64 64 8) by (assumption || reflexivity || lia).
  cbn [bind].
  rewrite (mha_forward_closed 512 64 64 8) by (assumption || reflexivity || lia).
  cbn [bind].
  rewrite reshape_3_4_exact by (cbn [a0 a1 a2 permute_0_2_1 tab3 Steps.composition tokens]; lia).
  reflexivity.
Qed.

(** On an empty batch the first [view(batch_size, -1, ...)] is refused. *)
Lemma mha_forward_empty_batch (d_model dk dv heads : nat) (m : MultiHeadAttention.t)
    (input_Q input_K input_V : Tensor3) :
  mha_configured d_model dk dv heads m = true ->
  a2 input_Q = d_model -> a0 input_Q = 0 ->
  MultiHeadAttention.forward m input_Q input_K input_V = Raise (RuntimeError AmbiguousShape).
Proof.
  intros Hc HQ HB.
  destruct (mha_configured_sizes _ _ _ _ _ Hc) as (_ & _ & _ & EQi & _).
  unfold MultiHeadAttention.forward. cbv zeta.
  rewrite (Linear_forward_ok (MultiHeadAttention.W_Q m) input_Q) by congruence.
  cbn [bind]. rewrite view_3_4_ambiguous; [reflexivity | |]; cbn [a0 a1 a2 tab3]; rewrite HB; lia.
Qed.

Lemma stack_forward_empty_batch (m : Multi_Heads.t) (x : Tensor4) :
  stack_configured m = true -> b1 x = 512 -> b0 x = 0 ->
  Multi_Heads.forward m x = Raise (RuntimeError AmbiguousShape).
Proof.
  intros Hc HC HB. destruct (stack_configured_heads m Hc) as [H1 _].
  rewrite stack_to_tokens.
  now rewrite (mha_forward_empty_batch 512 64 64 8).
Qed.

(** A width other than [d_model] is refused by the first projection. *)
Lemma mha_forward_mismatch (d_model dk dv heads : nat) (m : MultiHeadAttention.t)
    (input_Q input_K input_V : Tensor3) :
  mha_configured d_model dk dv heads m = true ->
  a2 input_Q <> d_model ->
  MultiHeadAttention.forward m input_Q input_K input_V = Raise (RuntimeError DimMismatch).
Proof.
  intros Hc HQ.
  destruct (mha_configured_sizes _ _ _ _ _ Hc) as (_ & _ & _ & EQi & _).
  unfold MultiHeadAttention.forward. cbv zeta.
  now rewrite Linear_forward_mismatch by congruence.
Qed.

Lemma infer_size_raises (shape : list (option nat)) (n : nat) (e : exn) :
  infer_size shape n = Raise e -> exists c, e = RuntimeError c.
Proof.
  unfold infer_size. intros H.
  repeat match type of H with
         | context [match ?b with _ => _ end] => destruct b
         end; inversion H; eauto.
Qed.

Lemma view_3_4_raises (x : Tensor3) (a b c d : option nat) (e : exn) :
  view_3_4 x a b c d = Raise e -> exists c, e = RuntimeError c.
Proof.
  unfold view_3_4, reshape_3_4. intros H.
  destruct (infer_size _ _) as [s | e'] eqn:Hs; [discriminate |].
  cbn [bind] in H. inversion H; subst. eauto using infer_size_raises.
Qed.

Lemma bind_runtime {A B} (r : result A) (k : A -> result B) :
  (forall e, r = Raise e -> exists c, e = RuntimeError c) ->
  (forall a, exists c, k a = Raise (RuntimeError c)) ->
  exists c, bind r k = Raise (RuntimeError c).
Proof.
  intros Hr Hk. destruct r as [a | e]; cbn [bind]; [apply Hk |].
  destruct (Hr e eq_refl) as [c ->]. eauto.
Qed.

(** Whichever of the three inputs has a width other than [d_model], the
    call ends in a shape error of torch. *)
Lemma mha_forward_any_mismatch (d_model dk dv heads : nat) (m : MultiHeadAttention.t)
    (input_Q input_K input_V : Tensor3) :
  mha_configured d_model dk dv heads m = true ->
  a2 input_Q <> d_model \/ a2 input_K <> d_model \/ a2 input_V <> d_model ->
  exists c, MultiHeadAttention.forward m input_Q input_K input_V = Raise (RuntimeError c).
Proof.
  intros Hc Hw.
  destruct (Nat.eq_dec (a2 input_Q) d_model) as [HQ | HQ];
    [| eexists; now apply (mha_forward_mismatch d_model dk dv heads)].
  destruct (mha_configured_sizes _ _ _ _ _ Hc)
    as (_ & _ & _ & EQi & _ & EKi & _ & EVi & _).
  unfold MultiHeadAttention.forward. cbv zeta.
  rewrite (Linear_forward_ok (MultiHeadAttention.W_Q m) input_Q) by congruence.
  cbn [bind].
  apply bind_runtime; [intros e He; eapply view_3_4_raises, He |]. intros q.
  destruct (Nat.eq_dec (a2 input_K) d_model) as [HK | HK];
    [| rewrite (Linear_forward_mismatch (MultiHeadAttention.W_K m)) by congruence;
       cbn [bind]; eauto].
  rewrite (Linear_forward_ok (MultiHeadAttention.W_K m) input_K) by congruence.
  cbn [bind].
  apply bind_runtime; [intros e He; eapply view_3_4_raises, He |]. intros k.
  destruct Hw as [Hw | [Hw | Hw]]; try contradiction.
  rewrite (Linear_forward_mismatch (MultiHeadAttention.W_V m)) by congruence.
  cbn [bind]. eauto.
Qed.

Lemma stack_forward_mismatch (m : Multi_Heads.t) (x : Tensor4) :
  stack_configured m = true -> b1 x <> 512 ->
  Multi_Heads.forward m x = Raise (RuntimeError DimMismatch).
Proof.
  intros Hc HC. destruct (stack_configured_heads m Hc) as [H1 _].
  rewrite stack_to_tokens.
  now rewrite (mha_forward_mismatch 512 64 64 8).
Qed.

(** ** Reordering the tokens *)

(** Reordering keys and values together does not change an attention row:
    the softmax denominator and the weighted sum run over all keys. *)
Lemma attention_row_permute (p : list nat) (len_k width : nat) (q : nat -> R)
    (K V : nat -> nat -> R) (d_k : R) (j : nat) :
  is_permutation p len_k ->
  attention_row len_k width q (fun t => K (nth t p 0)) (fun t => V (nth t p 0)) d_k j =
  attention_row len_k width q K V d_k j.
Proof.
  intros Hp. unfold attention_row.
  rewrite <- (sum_n_reindex p len_k
    (fun t => (softmax len_k (score width q K d_k) t * V t j)%R) Hp).
  apply sum_n_ext. intros t Ht. f_equal. unfold softmax. f_equal.
  exact (sum_n_reindex p len_k (fun t' => exp (score width q K d_k t')) Hp).
Qed.

Section Reorder.
Variable p : list nat.
Variable m : MultiHeadAttention.t.
Variable x : Tensor3.
Hypothesis Hp : is_permutation p (a1 x).

Let y := permute_tokens p x.

Lemma project_permute (W : Linear) (b s e : nat) :
  b < a0 x -> s < a1 x ->
  Steps.project W y b s e = Steps.project W x b (nth s p 0) e.
Proof.
  intros Hb Hs. unfold Steps.project, y. cbn [a2 permute_tokens tab3].
  apply sum_n_ext. intros k Hk. unfold permute_tokens.
  now rewrite get3_tab3.
Qed.

Lemma head_context_permute (b h s j : nat) :
  b < a0 x -> s < a1 x ->
  Steps.head_context m y y y b h s j = Steps.head_context m x x x b h (nth s p 0) j.
Proof.
  intros Hb Hs. unfold Steps.head_context.
  replace (a1 y) with (a1 x) by reflexivity.
  etransitivity; [| exact (attention_row_permute p _ _ _ _ _ _ _ Hp)].
  apply attention_row_ext.
  - intros d _. unfold Steps.head. now apply project_permute.
  - intros t d Ht _. unfold Steps.head. now apply project_permute.
  - intros t Ht. unfold Steps.head. now apply project_permute.
Qed.

Lemma get3_merged (z : Tensor3) (b s h j : nat) :
  b < a0 z -> s < a1 z -> h < MultiHeadAttention.n_heads m -> j < MultiHeadAttention.d_v m ->
  get3 (Steps.merged m z z z) b s (h * MultiHeadAttention.d_v m + j) =
  Steps.head_context m z z z b h s j.
Proof.
  intros Hb Hs Hh Hj. unfold get3, Steps.merged. cbn [a0 a1 a2 dat3].
  set (H := MultiHeadAttention.n_heads m) in *.
  set (dv := MultiHeadAttention.d_v m) in *.
  replace ((b * a1 z + s) * (H * dv) + (h * dv + j))
    with (((b * a1 z + s) * H + h) * dv + j) by lia.
  now rewrite nth_fill4.
Qed.

Lemma merged_permute (b s e : nat) :
  b < a0 x -> s < a1 x ->
  e < MultiHeadAttention.n_heads m * MultiHeadAttention.d_v m ->
  get3 (Steps.merged m y y y) b s e = get3 (Steps.merged m x x x) b (nth s p 0) e.
Proof.
  intros Hb Hs He.
  set (dv := MultiHeadAttention.d_v m) in *.
  assert (Hdv : 0 < dv) by (destruct dv; lia).
  assert (Hh : e / dv < MultiHeadAttention.n_heads m)
    by (apply Nat.Div0.div_lt_upper_bound; lia).
  assert (Hj : e mod dv < dv) by (apply Nat.mod_upper_bound; lia).
  rewrite (Nat.div_mod_eq e dv), (Nat.mul_comm dv).
  unfold dv in *. rewrite !get3_merged; try assumption.
  - now apply head_context_permute.
  - now apply is_permutation_lt.
Qed.

(** Self-attention commutes with a reordering of the tokens. *)
Lemma self_attention_permute :
  self_attention m y = permute_tokens p (self_attention m x).
Proof.
  unfold self_attention, Steps.composition. unfold permute_tokens at 1.
  cbn [a0 a1 a2 tab3 y permute_tokens].
  apply tab3_ext. intros b s c Hb Hs Hc.
  rewrite get3_tab3 by (try assumption; now apply is_permutation_lt).
  apply normalized_ext; [| assumption]. intros c' Hc'. f_equal.
  - unfold Steps.project. cbn [a2 Steps.merged]. apply sum_n_ext. intros e He.
    f_equal. now apply merged_permute.
  - unfold y, permute_tokens. now rewrite get3_tab3.
Qed.
End Reorder.

Lemma tokens_permute (p : list nat) (x : Tensor4) :
  is_permutation p (b2 x * b3 x) ->
  tokens (permute_positions p x) = permute_tokens p (tokens x).
Proof.
  intros Hp. unfold tokens, permute_positions, permute_tokens, permute_0_2_1.
  cbn [a0 a1 a2 b0 b1 b2 b3 dat3 dat4 tab3].
  apply tab3_ext. intros b s c Hb Hs Hc.
  fold (tab3 (b0 x) (b1 x) (b2 x * b3 x)
         (fun b c s => get3 (T3 (b0 x) (b1 x) (b2 x * b3 x) (dat4 x)) b c (nth s p 0))).
  rewrite get3_tab3 by assumption.
  fold (tab3 (b0 x) (b2 x * b3 x) (b1 x)
         (fun b i j => get3 (T3 (b0 x) (b1 x) (b2 x * b3 x) (dat4 x)) b j i)).
  rewrite get3_tab3; try assumption; [reflexivity |]. now apply is_permutation_lt.
Qed.

Lemma feature_map_permute (p : list nat) (h w : nat) (x : Tensor3) :
  a1 x = h * w -> is_permutation p (h * w) ->
  feature_map h w (permute_tokens p x) = permute_positions p (feature_map h w x).
Proof.
  intros Hx Hp. unfold feature_map, permute_positions, permute_tokens, permute_0_2_1.
  cbn [a0 a1 a2 b0 b1 b2 b3 dat3 dat4 tab3]. rewrite Hx. f_equal.
  apply fill3_ext. intros b c s Hb Hc Hs.
  fold (tab3 (a0 x) (h * w) (a2 x) (fun b s c => get3 x b (nth s p 0) c)).
  rewrite get3_tab3 by assumption.
  fold (tab3 (a0 x) (a2 x) (h * w) (fun b i j => get3 x b j i)).
  rewrite get3_tab3; try assumption; [reflexivity |]. now apply is_permutation_lt.
Qed.

(** ** Shapes on concrete inputs *)

Example small_attention_shape :
  rmap shape3 (MultiHeadAttention.forward small_mha small_tokens small_tokens small_tokens)
  = Ok [1; 3; 4].
Proof. reflexivity. Qed.

Example stack_shape_512 :
  rmap shape4 (Multi_Heads.forward default_stack map_512) = Ok [1; 512; 1; 2].
Proof. reflexivity. Qed.

Example stack_raises_256 :
  Multi_Heads.forward default_stack map_256 = Raise (RuntimeError DimMismatch).
Proof. reflexivity. Qed.

(** ** Rows of a softmax *)

Lemma get4_softmax_last (x : Tensor4) (b h i t : nat) :
  b < b0 x -> h < b1 x -> i < b2 x -> t < b3 x ->
  get4 (softmax_last x) b h i t = softmax (b3 x) (fun t' => get4 x b h i t') t.
Proof. intros. unfold softmax_last. now rewrite get4_tab4. Qed.

Lemma softmax_last_row (x : Tensor4) (b h i : nat) :
  b < b0 (softmax_last x) -> h < b1 (softmax_last x) -> i < b2 (softmax_last x) ->
  0 < b3 x ->
  sum_n (b3 (softmax_last x)) (fun t => get4 (softmax_last x) b h i t) = 1%R.
Proof.
  intros Hb Hh Hi Hk. change (b3 (softmax_last x)) with (b3 x).
  rewrite (sum_n_ext _ _ (softmax (b3 x) (fun t' => get4 x b h i t'))).
  - now apply softmax_sums_to_one.
  - intros t Ht. now apply get4_softmax_last.
Qed.

(** * The claims *)

(** ** ScaledDotProductAttention *)

(** C1.  For query, key and value tensors of matching head-split shape
    (Q of shape (B, H, Lq, d), K of shape (B, H, Lk, d), V of shape
    (B, H, Lk, dv)) and a positive scalar [d_k], [forward] returns
    softmax(Q·Kᵗ / sqrt(d_k))·V, where each softmax runs over the keys of
    one batch element, one head and one query position.  [forward] is a
    function of its four arguments only: there is no parameter and no
    state to read or write. *)
Theorem sdpa_forward_contract (Q K V : Tensor4) (d_k : R) :
  b0 K = b0 Q -> b1 K = b1 Q -> b3 K = b3 Q ->
  b0 V = b0 Q -> b1 V = b1 Q -> b2 V = b2 K ->
  (0 < d_k)%R ->
  ScaledDotProductAttention.forward Q K V d_k = Ok (attention_spec Q K V d_k).
Proof. intros. now apply sdpa_forward_closed. Qed.

Lemma sdpa_forward_contract_witness :
  ScaledDotProductAttention.forward one_query one_key one_key 1 =
  Ok (attention_spec one_query one_key one_key 1).
Proof.
  apply (sdpa_forward_contract one_query one_key one_key 1);
    try reflexivity. exact Rlt_0_1.
Defined.

(** ** MultiHeadAttention *)

(** C2, as stated, fails on an empty batch: [view(batch_size, -1, n_heads,
    d_k)] cannot infer the token count of a tensor without elements, so
    [forward] raises and there is no output whose shape could equal that
    of inputQ. *)
Lemma mha_forward_no_output_on_empty_batch :
  MultiHeadAttention.forward default_mha
    empty_batch_tokens empty_batch_tokens empty_batch_tokens
  = Raise (RuntimeError AmbiguousShape) /\
  ~ exists y,
      MultiHeadAttention.forward default_mha
        empty_batch_tokens empty_batch_tokens empty_batch_tokens = Ok y /\
      shape3 y = shape3 empty_batch_tokens.
Proof.
  assert (H : MultiHeadAttention.forward default_mha
                empty_batch_tokens empty_batch_tokens empty_batch_tokens
              = Raise (RuntimeError AmbiguousShape)).
  { apply (mha_forward_empty_batch 512 64 64 8);
      first [apply mha_init_configured | reflexivity]. }
  split; [exact H |]. intros [y [Hy _]]. rewrite H in Hy. discriminate.
Qed.

(** C2, amended.  For a block with at least one head and positive per-head
    widths, and inputQ, inputK, inputV of shape (batch, tokens, d_model)
    with batch >= 1, [forward] equals the composition of the spec: bias-free
    projections into n_heads × d_k (resp. d_v) components, the split into
    heads, attention for every (batch, head) pair, the heads merged into
    one embedding axis, a bias-free projection back to d_model, the
    residual inputQ and layer normalisation over the embedding axis; the
    output has the shape of inputQ. *)
Theorem mha_forward_is_composition (d_model dk dv heads B T : nat)
    (m : MultiHeadAttention.t) (input_Q input_K input_V : Tensor3) :
  mha_configured d_model dk dv heads m = true ->
  0 < dk -> 0 < dv -> 0 < heads ->
  shape3 input_Q = [B; T; d_model] ->
  shape3 input_K = [B; T; d_model] ->
  shape3 input_V = [B; T; d_model] ->
  0 < B ->
  exists y, MultiHeadAttention.forward m input_Q input_K input_V = Ok y /\
            y = Steps.composition m input_Q input_K input_V /\
            shape3 y = shape3 input_Q.
Proof.
  unfold shape3. intros Hc Hdk Hdv Hh HQ HK HV HB.
  injection HQ as Q0 Q1 Q2. injection HK as K0 K1 K2. injection HV as V0 V1 V2.
  eexists. split; [| split; reflexivity].
  apply (mha_forward_closed d_model dk dv heads); (assumption || congruence || lia).
Qed.

Lemma mha_forward_is_composition_witness :
  exists y, MultiHeadAttention.forward default_mha one_token one_token one_token = Ok y /\
            y = Steps.composition default_mha one_token one_token one_token /\
            shape3 y = shape3 one_token.
Proof.
  apply (mha_forward_is_composition 512 64 64 8 1 1 default_mha);
    first [apply mha_init_configured | reflexivity | lia].
Defined.

(** ** Multi_Heads *)

(** C3, as stated, fails on a feature map with an empty batch: the first
    attention block raises, as above. *)
Lemma stack_no_output_on_empty_batch :
  b1 empty_batch_map = 512 /\
  Multi_Heads.forward default_stack empty_batch_map = Raise (RuntimeError AmbiguousShape) /\
  ~ exists y, Multi_Heads.forward default_stack empty_batch_map = Ok y /\
              shape4 y = shape4 empty_batch_map.
Proof.
  assert (H : Multi_Heads.forward default_stack empty_batch_map
              = Raise (RuntimeError AmbiguousShape)).
  { apply stack_forward_empty_batch;
      first [apply stack_init_configured | reflexivity]. }
  split; [reflexivity |]. split; [exact H |].
  intros [y [Hy _]]. rewrite H in Hy. discriminate.
Qed.

(** C3, amended.  For every feature map of shape (B, C, H, W) with B >= 1
    and C equal to the configured d_model (512), [Multi_Heads.forward]
    returns a tensor of exactly the shape (B, C, H, W). *)
Theorem stack_preserves_shape (m : Multi_Heads.t) (x : Tensor4) :
  stack_configured m = true -> b1 x = 512 -> 0 < b0 x ->
  exists y, Multi_Heads.forward m x = Ok y /\ shape4 y = shape4 x.
Proof.
  intros Hc HC HB. eexists. split; [now apply stack_forward_closed |].
  reflexivity.
Qed.

Lemma stack_preserves_shape_witness :
  exists y, Multi_Heads.forward default_stack map_512 = Ok y /\ shape4 y = shape4 map_512.
Proof.
  apply (stack_preserves_shape default_stack map_512);
    first [apply stack_init_configured | reflexivity | exact (le_n 1)].
Defined.

(** C8.  A stack built with d_model = 512 and fed a feature map whose
    channel count is not 512 (256, say) raises the dimension-mismatch
    error of the first projection, and returns nothing; in general a
    [MultiHeadAttention.forward] with an input whose embedding width is
    not the configured d_model ends in a shape error. *)
Theorem dimension_mismatch_raises (m : Multi_Heads.t) (x : Tensor4) :
  stack_configured m = true -> b1 x <> 512 ->
  Multi_Heads.forward m x = Raise (RuntimeError DimMismatch) /\
  forall d_model dk dv heads mha input_Q input_K input_V,
    mha_configured d_model dk dv heads mha = true ->
    a2 input_Q <> d_model \/ a2 input_K <> d_model \/ a2 input_V <> d_model ->
    exists c, MultiHeadAttention.forward mha input_Q input_K input_V = Raise (RuntimeError c).
Proof.
  intros Hc HC. split; [now apply stack_forward_mismatch |].
  intros. now apply (mha_forward_any_mismatch d_model dk dv heads).
Qed.

Lemma dimension_mismatch_raises_witness :
  b1 map_256 = 256 /\
  Multi_Heads.forward default_stack map_256 = Raise (RuntimeError DimMismatch).
Proof.
  split; [reflexivity |].
  apply (dimension_mismatch_raises default_stack map_256).
  - apply stack_init_configured.
  - discriminate.
Defined.

(** C9.  [Multi_Heads.forward] never applies its [Feed_forward] member:
    for every input, two stacks with the same attention blocks and any
    two values of the parameters of the feed-forward block give the same
    result. *)
Theorem feed_forward_not_invoked (m m' : Multi_Heads.t) (x : Tensor4) :
  Multi_Heads.multi_head1 m = Multi_Heads.multi_head1 m' ->
  Multi_Heads.multi_head2 m = Multi_Heads.multi_head2 m' ->
  Multi_Heads.forward m x = Multi_Heads.forward m' x.
Proof.
  intros H1 H2. rewrite !stack_to_tokens. now rewrite H1, H2.
Qed.

Lemma feed_forward_not_invoked_witness :
  Multi_Heads.forward default_stack map_512 = Multi_Heads.forward other_stack map_512.
Proof.
  apply (feed_forward_not_invoked default_stack other_stack map_512);
    transitivity default_mha; reflexivity.
Defined.

(** ** CIF_Multihead *)

Lemma init_ok (bottom_up : pyobject) (w : Multi_Heads.initial) (s : ShapeSpec) :
  is_Backbone bottom_up = true ->
  py_output_shape bottom_up !! "CIF" = Some s ->
  CIF_Multihead.init bottom_up w =
  Ok {| CIF_Multihead.strides := stride s;
        CIF_Multihead.in_channels := channels s;
        CIF_Multihead.features1 := bottom_up;
        CIF_Multihead.features2 := Multi_Heads.init w |}.
Proof.
  intros Hb Hs. unfold CIF_Multihead.init, getitem. now rewrite Hb, Hs.
Qed.

(** Whatever names a collection holds, handing it to the stack raises
    before any name is looked up. *)
Lemma forward_of_collection (self : CIF_Multihead.t) (x : Tensor4) (d : gmap string Tensor4) :
  py_call (CIF_Multihead.features1 self) x = Ok (PyDict d) ->
  CIF_Multihead.forward self x = Raise (AttributeError "shape").
Proof. intros H. unfold CIF_Multihead.forward. now rewrite H. Qed.

(** C4.  The code at an upstream backbone whose forward output is a
    collection without the name "CIF": [forward] raises, but the error is
    the attribute error of [x.shape] on the collection, not a missing-key
    error; no key is looked up in [forward]. *)
Theorem forward_without_designated_name :
  exists self,
    CIF_Multihead.init upstream_collection zero_stack = Ok self /\
    py_call upstream_collection map_512 = Ok (PyDict {[ "res5" := map_512 ]}) /\
    ({[ "res5" := map_512 ]} : gmap string Tensor4) !! "CIF" = None /\
    CIF_Multihead.forward self map_512 = Raise (AttributeError "shape") /\
    CIF_Multihead.forward self map_512 <> Raise (KeyError "CIF").
Proof.
  eexists. split; [apply (init_ok upstream_collection zero_stack cif_spec); reflexivity |].
  split; [reflexivity |]. split; [reflexivity |].
  assert (H : CIF_Multihead.forward
                {| CIF_Multihead.strides := stride cif_spec;
                   CIF_Multihead.in_channels := channels cif_spec;
                   CIF_Multihead.features1 := upstream_collection;
                   CIF_Multihead.features2 := Multi_Heads.init zero_stack |} map_512
              = Raise (AttributeError "shape"))
    by (eapply forward_of_collection; reflexivity).
  split; [exact H |]. rewrite H. discriminate.
Qed.

(** C5.  For every conforming upstream backbone, [output_shape] of the
    wrapper built on it is the single-entry mapping from "CIF_MultiHead" to
    the channel count and stride that the upstream [output_shape()]
    reported for "CIF" at construction; the values of the attention
    parameters play no part, and [forward] has no access to the record. *)
Theorem output_shape_forwards_metadata (bottom_up : pyobject) (w : Multi_Heads.initial)
    (s : ShapeSpec) :
  is_Backbone bottom_up = true ->
  py_output_shape bottom_up !! "CIF" = Some s ->
  exists self,
    CIF_Multihead.init bottom_up w = Ok self /\
    CIF_Multihead.output_shape self =
      {[ "CIF_MultiHead" := {| channels := channels s; stride := stride s |} ]} /\
    forall m, CIF_Multihead.output_shape
                {| CIF_Multihead.strides := CIF_Multihead.strides self;
                   CIF_Multihead.in_channels := CIF_Multihead.in_channels self;
                   CIF_Multihead.features1 := CIF_Multihead.features1 self;
                   CIF_Multihead.features2 := m |}
              = CIF_Multihead.output_shape self.
Proof.
  intros Hb Hs. eexists. split; [apply (init_ok _ _ s); assumption |].
  split; reflexivity.
Qed.

Lemma output_shape_forwards_metadata_witness :
  exists self,
    CIF_Multihead.init upstream_collection zero_stack = Ok self /\
    CIF_Multihead.output_shape self =
      {[ "CIF_MultiHead" := {| channels := 512; stride := 32 |} ]}.
Proof.
  destruct (output_shape_forwards_metadata upstream_collection zero_stack cif_spec
              eq_refl eq_refl) as [self [Hinit [Hshape _]]].
  exists self. split; [exact Hinit | exact Hshape].
Defined.

(** C10.  Construction on an upstream [Backbone] whose [output_shape()]
    lacks the key "CIF" raises the missing-key error, in the constructor;
    construction succeeds exactly when the upstream is a [Backbone]
    instance whose [output_shape()] has the key "CIF". *)
Theorem init_requires_cif_entry (bottom_up : pyobject) (w : Multi_Heads.initial) :
  (is_Backbone bottom_up = true ->
   py_output_shape bottom_up !! "CIF" = None ->
   CIF_Multihead.init bottom_up w = Raise (KeyError "CIF")) /\
  ((exists self, CIF_Multihead.init bottom_up w = Ok self) <->
   is_Backbone bottom_up = true /\ is_Some (py_output_shape bottom_up !! "CIF")).
Proof.
  unfold CIF_Multihead.init, getitem. split.
  - intros Hb Hs. now rewrite Hb, Hs.
  - destruct (is_Backbone bottom_up); cbn [negb].
    + destruct (py_output_shape bottom_up !! "CIF") as [s |]; cbn [bind].
      * split; [intros _; split; [reflexivity | now exists s] | intros _; eauto].
      * split; [intros [self H]; discriminate | intros [_ [s H]]; discriminate].
    + split; [intros [self H]; discriminate | intros [H _]; discriminate].
Qed.

Lemma init_requires_cif_entry_witness :
  CIF_Multihead.init upstream_unnamed zero_stack = Raise (KeyError "CIF").
Proof.
  apply (proj1 (init_requires_cif_entry upstream_unnamed zero_stack)); reflexivity.
Defined.

(** * Further properties of the code *)

(** ** ScaledDotProductAttention: errors, an empty key axis *)

Lemma matmul_raises (x y : Tensor4) (e : exn) :
  matmul x y = Raise e -> e = RuntimeError DimMismatch.
Proof.
  unfold matmul. intros H.
  destruct (bdim (b0 x) (b0 y)); [| now inversion H].
  destruct (bdim (b1 x) (b1 y)); [| now inversion H].
  destruct (b3 x =? b2 y); [discriminate | now inversion H].
Qed.

Lemma matmul_ok_sizes (x y z : Tensor4) :
  matmul x y = Ok z -> b3 x = b2 y /\ b2 z = b2 x /\ b3 z = b3 y.
Proof.
  unfold matmul. intros H.
  destruct (bdim (b0 x) (b0 y)); [| discriminate].
  destruct (bdim (b1 x) (b1 y)); [| discriminate].
  destruct (Nat.eqb_spec (b3 x) (b2 y)); [| discriminate].
  injection H as <-. auto.
Qed.

Lemma matmul_inner_mismatch (x y : Tensor4) :
  b3 x <> b2 y -> matmul x y = Raise (RuntimeError DimMismatch).
Proof.
  intros H. unfold matmul.
  destruct (bdim (b0 x) (b0 y)); [| reflexivity].
  destruct (bdim (b1 x) (b1 y)); [| reflexivity].
  now destruct (Nat.eqb_spec (b3 x) (b2 y)).
Qed.

(** X1.  When the width of the queries is not the width of the keys, or
    the number of keys is not the number of values, [forward] (lines 16-26)
    raises the size mismatch of [torch.matmul], whatever the other sizes
    are. *)
Theorem sdpa_forward_mismatch (Q K V : Tensor4) (d_k : R) :
  b3 Q <> b3 K \/ b2 K <> b2 V ->
  ScaledDotProductAttention.forward Q K V d_k = Raise (RuntimeError DimMismatch).
Proof.
  intros H. unfold ScaledDotProductAttention.forward.
  destruct (matmul Q (transpose_last K)) as [qk | e] eqn:Hqk; cbn [bind].
  - destruct (matmul_ok_sizes _ _ _ Hqk) as (Hin & _ & Hout).
    change (b2 (transpose_last K)) with (b3 K) in Hin.
    change (b3 (transpose_last K)) with (b2 K) in Hout.
    destruct H as [H | H]; [contradiction |].
    rewrite matmul_inner_mismatch; [reflexivity |].
    change (b3 (softmax_last (div_scalar qk (sqrt d_k)))) with (b3 qk). congruence.
  - f_equal. eapply matmul_raises, Hqk.
Qed.

Lemma sdpa_forward_mismatch_witness :
  ScaledDotProductAttention.forward one_query wide_key one_key 1
  = Raise (RuntimeError DimMismatch).
Proof.
  apply (sdpa_forward_mismatch one_query wide_key one_key 1).
  left. discriminate.
Defined.

Lemma attn_sizes (Q K : Tensor4) (d_k : R) (a : Tensor4) :
  ScaledDotProductAttention.attn Q K d_k = Ok a -> b2 a = b2 Q /\ b3 a = b2 K.
Proof.
  unfold ScaledDotProductAttention.attn. intros Ha.
  destruct (matmul Q (transpose_last K)) as [qk | e] eqn:Hqk; [| discriminate].
  cbn [bind] in Ha. injection Ha as <-.
  unfold matmul in Hqk.
  destruct (bdim (b0 Q) (b0 (transpose_last K))); [| discriminate].
  destruct (bdim (b1 Q) (b1 (transpose_last K))); [| discriminate].
  destruct (b3 Q =? b2 (transpose_last K)); [| discriminate].
  injection Hqk as <-. split; reflexivity.
Qed.

(** X25.  Nothing in [forward] asks for a key: when K has no key position
    and the weights are computed, every query gets an empty row of
    weights, and the sum of a row along the key axis is 0, the sum of no
    term, not 1. *)
Theorem attention_weights_without_keys (Q K : Tensor4) (d_k : R) (a : Tensor4) :
  ScaledDotProductAttention.attn Q K d_k = Ok a ->
  b2 K = 0 ->
  b2 a = b2 Q /\ b3 a = 0 /\
  forall b h i, sum_n (b3 a) (fun t => get4 a b h i t) = 0%R.
Proof.
  intros Ha HK. destruct (attn_sizes Q K d_k a Ha) as [Hq Hk].
  rewrite Hk, HK. split; [exact Hq |]. split; [reflexivity |].
  intros b h i. reflexivity.
Qed.

Lemma attention_weights_without_keys_witness :
  exists a, ScaledDotProductAttention.attn one_query no_key 1 = Ok a /\
            b2 a = 1 /\ b3 a = 0 /\
            sum_n (b3 a) (fun t => get4 a 0 0 0 t) = 0%R.
Proof.
  eexists. split; [reflexivity |].
  destruct (attention_weights_without_keys one_query no_key 1 _ eq_refl eq_refl)
    as (Hq & Hk & Hsum).
  split; [exact Hq |]. split; [exact Hk |]. exact (Hsum 0 0 0).
Defined.

(** ** PoswiseFeedForwardNet *)

Lemma pff_configured_sizes (d_model d_ff : nat) (m : PoswiseFeedForwardNet.t) :
  pff_configured d_model d_ff m = true ->
  in_features (PoswiseFeedForwardNet.fc_0 m) = d_model /\
  out_features (PoswiseFeedForwardNet.fc_0 m) = d_ff /\
  in_features (PoswiseFeedForwardNet.fc_2 m) = d_ff /\
  out_features (PoswiseFeedForwardNet.fc_2 m) = d_model /\
  normalized_shape (PoswiseFeedForwardNet.norm m) = d_model.
Proof.
  unfold pff_configured. rewrite !andb_true_iff, !Nat.eqb_eq. tauto.
Qed.

Lemma pff_init_configured (d_model d_ff : nat) (w0 w2 : nat -> nat -> R) :
  pff_configured d_model d_ff (PoswiseFeedForwardNet.init d_model d_ff w0 w2) = true.
Proof.
  unfold pff_configured, PoswiseFeedForwardNet.init, in_features, out_features. simpl.
  now rewrite !Nat.eqb_refl.
Qed.

(** [forward] applies [feed_forward_token] to every token. *)
Lemma pff_forward_closed (d_model d_ff : nat) (m : PoswiseFeedForwardNet.t) (x : Tensor3) :
  pff_configured d_model d_ff m = true -> a2 x = d_model ->
  PoswiseFeedForwardNet.forward m x =
  Ok (tab3 (a0 x) (a1 x) (a2 x) (fun b s c => feed_forward_token m (a2 x) (get3 x b s) c)).
Proof.
  intros Hc Hx.
  destruct (pff_configured_sizes _ _ _ Hc) as (E0i & E0o & E2i & E2o & En).
  unfold PoswiseFeedForwardNet.forward. cbv zeta.
  rewrite (Linear_forward_ok (PoswiseFeedForwardNet.fc_0 m) x) by congruence.
  cbn [bind].
  rewrite Linear_forward_ok by (cbn [a2 relu tab3]; congruence).
  cbn [bind]. unfold add. cbn [a0 a1 a2 tab3 relu].
  rewrite E2o, <- Hx, !bdim_same. cbn [bind].
  unfold LayerNorm_forward. cbn [a0 a1 a2 tab3]. rewrite En, Hx, Nat.eqb_refl.
  f_equal. rewrite <- Hx. apply tab3_ext. intros b s c Hb Hs Hc'.
  unfold feed_forward_token.
  match goal with |- _ = Steps.normalized ?l ?n ?v ?j =>
    transitivity (Steps.normalized l n
      (fun k => get3 (tab3 (a0 x) (a1 x) (a2 x) (fun b i j =>
         (get3 (tab3 (a0 x) (a1 x) (out_features (PoswiseFeedForwardNet.fc_2 m))
                 (Steps.project (PoswiseFeedForwardNet.fc_2 m)
                    (relu (tab3 (a0 x) (a1 x) (out_features (PoswiseFeedForwardNet.fc_0 m))
                             (Steps.project (PoswiseFeedForwardNet.fc_0 m) x)))))
               (bidx (a0 x) b) (bidx (a1 x) i) (bidx (a2 x) j) +
          get3 x (bidx (a0 x) b) (bidx (a1 x) i) (bidx (a2 x) j))%R)) b s k) j)
  end.
  - rewrite E2o, <- Hx. reflexivity.
  - apply normalized_ext; [| assumption]. intros k Hk.
    rewrite get3_tab3 by assumption. rewrite !bidx_lt by assumption.
    rewrite get3_tab3 by (assumption || congruence). f_equal.
    unfold Steps.project at 1. cbn [a2 relu tab3]. rewrite E0o, E2i.
    apply sum_n_ext. intros e He. f_equal. unfold relu.
    cbn [a0 a1 a2 tab3]. fold (tab3 (a0 x) (a1 x) (out_features (PoswiseFeedForwardNet.fc_0 m))
      (Steps.project (PoswiseFeedForwardNet.fc_0 m) x)).
    rewrite get3_tab3 by (assumption || congruence).
    rewrite get3_tab3 by (assumption || congruence).
    unfold Steps.project. now rewrite Hx, E0i.
Qed.

(** X9.  [forward] (lines 67-73) keeps the shape of every input whose
    width is d_model; unlike the attention block it has no [view], and an
    empty batch or an empty sequence is returned as an empty tensor. *)
Theorem pff_forward_preserves_shape (d_model d_ff : nat) (m : PoswiseFeedForwardNet.t)
    (x : Tensor3) :
  pff_configured d_model d_ff m = true -> a2 x = d_model ->
  exists y, PoswiseFeedForwardNet.forward m x = Ok y /\ shape3 y = shape3 x.
Proof.
  intros Hc Hx. eexists. split; [now apply (pff_forward_closed d_model d_ff) |].
  reflexivity.
Qed.

Lemma pff_forward_preserves_shape_witness :
  exists y, PoswiseFeedForwardNet.forward default_pff empty_batch_tokens = Ok y /\
            shape3 y = shape3 empty_batch_tokens.
Proof.
  apply (pff_forward_preserves_shape 512 2048 default_pff empty_batch_tokens);
    first [apply pff_init_configured | reflexivity].
Defined.

(** X10.  An input whose width is not d_model is refused by the first
    linear layer of [forward], with the size mismatch of torch. *)
Theorem pff_forward_mismatch (d_model d_ff : nat) (m : PoswiseFeedForwardNet.t)
    (x : Tensor3) :
  pff_configured d_model d_ff m = true -> a2 x <> d_model ->
  PoswiseFeedForwardNet.forward m x = Raise (RuntimeError DimMismatch).
Proof.
  intros Hc Hx. destruct (pff_configured_sizes _ _ _ Hc) as (E0i & _).
  unfold PoswiseFeedForwardNet.forward. cbv zeta.
  now rewrite Linear_forward_mismatch by congruence.
Qed.

Lemma pff_forward_mismatch_witness :
  PoswiseFeedForwardNet.forward small_pff one_token = Raise (RuntimeError DimMismatch).
Proof.
  apply (pff_forward_mismatch 4 8 small_pff one_token);
    first [apply pff_init_configured | discriminate].
Defined.

(** X11.  [forward] is position-wise: an output token is a function of
    the input token at the same place and of nothing else.  Two inputs,
    of any batch sizes and lengths, that hold the same token at two places
    give the same output token at these places. *)
Theorem pff_forward_position_wise (d_model d_ff : nat) (m : PoswiseFeedForwardNet.t)
    (x x' y y' : Tensor3) (b s b' s' : nat) :
  pff_configured d_model d_ff m = true ->
  PoswiseFeedForwardNet.forward m x = Ok y ->
  PoswiseFeedForwardNet.forward m x' = Ok y' ->
  b < a0 x -> s < a1 x -> b' < a0 x' -> s' < a1 x' ->
  (forall c, c < d_model -> get3 x b s c = get3 x' b' s' c) ->
  forall c, c < d_model -> get3 y b s c = get3 y' b' s' c.
Proof.
  intros Hc Hy Hy' Hb Hs Hb' Hs' Htok c Hc'.
  destruct (Nat.eq_dec (a2 x) d_model) as [Hx | Hx];
    [| rewrite (pff_forward_mismatch d_model d_ff) in Hy by assumption; discriminate].
  destruct (Nat.eq_dec (a2 x') d_model) as [Hx' | Hx'];
    [| rewrite (pff_forward_mismatch d_model d_ff) in Hy' by assumption; discriminate].
  rewrite (pff_forward_closed d_model d_ff) in Hy by assumption.
  rewrite (pff_forward_closed d_model d_ff) in Hy' by assumption.
  injection Hy as <-. injection Hy' as <-.
  rewrite !get3_tab3 by (assumption || congruence).
  rewrite Hx, Hx'. unfold feed_forward_token.
  destruct (pff_configured_sizes _ _ _ Hc) as (E0i & _).
  apply normalized_ext; [| assumption]. intros k Hk.
  rewrite (Htok k) by assumption. f_equal.
  apply sum_n_ext. intros e He. f_equal. f_equal.
  apply sum_n_ext. intros j Hj. rewrite Htok; [reflexivity | congruence].
Qed.

Lemma pff_forward_position_wise_witness :
  exists y, PoswiseFeedForwardNet.forward small_pff token_pair = Ok y /\
            get3 y 0 0 2 = get3 y 0 1 2.
Proof.
  eexists. split; [reflexivity |].
  apply (pff_forward_position_wise 4 8 small_pff token_pair token_pair _ _ 0 0 0 1
           (pff_init_configured 4 8 _ _) eq_refl eq_refl);
    try (unfold token_pair; cbn [a0 a1]; lia).
  intros c Hc. unfold token_pair, get3. cbn [a0 a1 a2 dat3].
  do 4 (destruct c as [| c]; [reflexivity |]). lia.
Defined.

(** X12.  Whatever keys and values are given, [MultiHeadAttention.forward]
    raises on an inputQ with an empty batch: line 48 asks [view] to infer
    the token count of a tensor without elements. *)
Theorem mha_forward_refuses_empty_batch (d_model dk dv heads : nat)
    (m : MultiHeadAttention.t) (input_Q input_K input_V : Tensor3) :
  mha_configured d_model dk dv heads m = true ->
  a2 input_Q = d_model -> a0 input_Q = 0 ->
  MultiHeadAttention.forward m input_Q input_K input_V = Raise (RuntimeError AmbiguousShape).
Proof. intros. now apply (mha_forward_empty_batch d_model dk dv heads). Qed.

Lemma mha_forward_refuses_empty_batch_witness :
  MultiHeadAttention.forward default_mha empty_batch_tokens two_tokens one_token
  = Raise (RuntimeError AmbiguousShape).
Proof.
  apply (mha_forward_refuses_empty_batch 512 64 64 8);
    first [apply mha_init_configured | reflexivity].
Defined.

(** ** Multi_Heads: the two layouts *)

Lemma firstn_skipn_app (l : list R) (a b : nat) :
  firstn a l ++ firstn b (skipn a l) = firstn (a + b) l.
Proof.
  revert l. induction a as [| a IH]; intros l; [reflexivity |].
  destruct l as [| x l]; simpl.
  - now rewrite firstn_nil.
  - now rewrite IH.
Qed.

Lemma firstn_snoc_nth (l : list R) (n : nat) :
  n < length l -> firstn n l ++ [nth n l 0%R] = firstn (S n) l.
Proof.
  revert l. induction n as [| n IH]; intros l Hn; destruct l as [| x l];
    simpl in *; try lia; [reflexivity |].
  rewrite IH by lia. reflexivity.
Qed.

Lemma flat_map_seq_S (g : nat -> list R) (n : nat) :
  flat_map g (seq 0 (S n)) = flat_map g (seq 0 n) ++ g n.
Proof. rewrite seq_S, flat_map_app. simpl. now rewrite app_nil_r. Qed.

(** Blocks cut out of a list one after the other give back its prefix. *)
Lemma blocks_storage (l : list R) (g : nat -> list R) (off m n : nat) :
  (forall i, i < n -> g i = firstn m (skipn (off + i * m) l)) ->
  flat_map g (seq 0 n) = firstn (n * m) (skipn off l).
Proof.
  induction n as [| n IH]; intros Hg; [reflexivity |].
  rewrite flat_map_seq_S, IH by (intros i Hi; apply Hg; lia).
  rewrite Hg by lia. rewrite (Nat.add_comm off), <- skipn_skipn.
  rewrite firstn_skipn_app. f_equal. lia.
Qed.

Lemma fill1_storage (l : list R) (off n : nat) :
  off + n <= length l ->
  fill1 n (fun j => nth (off + j) l 0%R) = firstn n (skipn off l).
Proof.
  unfold fill1. induction n as [| n IH]; intros Hn; [reflexivity |].
  rewrite seq_S, map_app, IH by lia. simpl.
  rewrite <- nth_skipn. apply firstn_snoc_nth. rewrite length_skipn. lia.
Qed.

Lemma fill2_storage (l : list R) (off n m : nat) :
  off + n * m <= length l ->
  fill2 n m (fun i j => nth (off + (i * m + j)) l 0%R) = firstn (n * m) (skipn off l).
Proof.
  intros Hn. unfold fill2. apply blocks_storage. intros i Hi.
  rewrite <- fill1_storage by nia. apply fill1_ext. intros j _. f_equal. lia.
Qed.

Lemma fill3_storage (l : list R) (n m p : nat) :
  length l = n * m * p ->
  fill3 n m p (fun i j k => nth ((i * m + j) * p + k) l 0%R) = l.
Proof.
  intros Hl. unfold fill3.
  rewrite (blocks_storage l _ 0 (m * p) n).
  - simpl. apply firstn_all2. lia.
  - intros i Hi. rewrite <- fill2_storage by nia.
    apply fill2_ext. intros j k _ _. f_equal. lia.
Qed.

(** X13.  The two layout changes of [Multi_Heads.forward] are inverse to
    each other: lines 83-84 (to tokens) followed by lines 89-90 (back to
    the map) return the feature map they started from, element for
    element. *)
Theorem layout_round_trip (x : Tensor4) :
  well_formed4 x = true ->
  (do x1 <- reshape_4_3 x (Some (b0 x)) (Some (b1 x)) (Some (b2 x * b3 x));
   reshape_3_4 (permute_0_2_1 (permute_0_2_1 x1))
     (Some (b0 x)) (Some (b1 x)) (Some (b2 x)) (Some (b3 x)))
  = Ok x.
Proof.
  unfold well_formed4. intros Hwf. apply Nat.eqb_eq in Hwf.
  rewrite reshape_4_3_exact by lia. cbn [bind].
  rewrite reshape_3_4_exact by (cbn [a0 a1 a2 permute_0_2_1 tab3]; lia).
  destruct x as [B C H W d]. cbn [b0 b1 b2 b3 dat4] in *. f_equal. f_equal.
  unfold permute_0_2_1. cbn [a0 a1 a2 dat3 tab3].
  transitivity (fill3 B C (H * W) (fun i j k => nth ((i * C + j) * (H * W) + k) d 0%R));
    [| apply fill3_storage; lia].
  apply fill3_ext. intros b c s Hb Hc Hs.
  fold (tab3 B (H * W) C (fun b i j => get3 (T3 B C (H * W) d) b j i)).
  now rewrite get3_tab3.
Qed.

Lemma layout_round_trip_witness :
  (do x1 <- reshape_4_3 small_map (Some 1) (Some 2) (Some (1 * 3));
   reshape_3_4 (permute_0_2_1 (permute_0_2_1 x1)) (Some 1) (Some 2) (Some 1) (Some 3))
  = Ok small_map.
Proof. apply (layout_round_trip small_map). reflexivity. Defined.

(** ** CIF_Multihead.forward *)

(** X14.  When the upstream backbone hands back a bare feature map with
    512 channels and a batch that is not empty, [forward] (lines 121-127)
    returns a collection with the single name "CIF_MultiHead", whose map
    has the shape of the upstream map. *)
Theorem cif_forward_refines (self : CIF_Multihead.t) (x t : Tensor4) :
  stack_configured (CIF_Multihead.features2 self) = true ->
  py_call (CIF_Multihead.features1 self) x = Ok (PyTensor t) ->
  b1 t = 512 -> 0 < b0 t ->
  exists y, CIF_Multihead.forward self x = Ok {[ "CIF_MultiHead" := y ]} /\
            shape4 y = shape4 t.
Proof.
  intros Hc Hup HC HB. unfold CIF_Multihead.forward. rewrite Hup. cbn [bind].
  unfold CIF_Multihead.call_features2.
  rewrite stack_forward_closed by assumption. cbn [bind].
  eexists. split; reflexivity.
Qed.

Lemma init_features (bottom_up : pyobject) (w : Multi_Heads.initial) (self : CIF_Multihead.t) :
  CIF_Multihead.init bottom_up w = Ok self ->
  CIF_Multihead.features1 self = bottom_up /\
  CIF_Multihead.features2 self = Multi_Heads.init w.
Proof.
  unfold CIF_Multihead.init, getitem. intros H.
  destruct (is_Backbone bottom_up); [| discriminate]. cbn [negb] in H.
  destruct (py_output_shape bottom_up !! "CIF"); [| discriminate].
  cbn [bind] in H. injection H as <-. split; reflexivity.
Qed.

Lemma cif_forward_refines_witness :
  exists self y,
    CIF_Multihead.init upstream_tensor zero_stack = Ok self /\
    CIF_Multihead.forward self map_512 = Ok {[ "CIF_MultiHead" := y ]} /\
    shape4 y = shape4 map_512.
Proof.
  eexists. 
  destruct (cif_forward_refines
              {| CIF_Multihead.strides := stride cif_spec;
                 CIF_Multihead.in_channels := channels cif_spec;
                 CIF_Multihead.features1 := upstream_tensor;
                 CIF_Multihead.features2 := Multi_Heads.init zero_stack |}
              map_512 map_512 (stack_init_configured zero_stack) eq_refl eq_refl (le_n 1))
    as [y [Hy Hshape]].
  exists y. split; [| split; [exact Hy | exact Hshape]].
  apply (init_ok upstream_tensor zero_stack cif_spec); reflexivity.
Defined.

(** X15.  The constructor never compares the channel count it records
    with the width 512 of the attention stack: on an upstream that reports
    and produces another channel count, construction succeeds,
    [output_shape()] reports that count, and [forward] raises the size
    mismatch of the first projection. *)
Theorem cif_channels_unchecked (bottom_up : pyobject) (w : Multi_Heads.initial)
    (s : ShapeSpec) (x t : Tensor4) :
  is_Backbone bottom_up = true ->
  py_output_shape bottom_up !! "CIF" = Some s ->
  channels s <> 512 ->
  py_call bottom_up x = Ok (PyTensor t) ->
  b1 t = channels s ->
  exists self,
    CIF_Multihead.init bottom_up w = Ok self /\
    CIF_Multihead.output_shape self !! "CIF_MultiHead"
      = Some {| channels := channels s; stride := stride s |} /\
    CIF_Multihead.forward self x = Raise (RuntimeError DimMismatch).
Proof.
  intros Hb Hs Hc Hup Ht. eexists. split; [apply (init_ok _ _ s); assumption |].
  split; [reflexivity |].
  unfold CIF_Multihead.forward. cbn [CIF_Multihead.features1 CIF_Multihead.features2].
  rewrite Hup. cbn [bind]. unfold CIF_Multihead.call_features2.
  rewrite stack_forward_mismatch; [reflexivity | apply stack_init_configured | congruence].
Qed.

Lemma cif_channels_unchecked_witness :
  exists self,
    CIF_Multihead.init upstream_narrow zero_stack = Ok self /\
    CIF_Multihead.output_shape self !! "CIF_MultiHead"
      = Some {| channels := 256; stride := 16 |} /\
    CIF_Multihead.forward self map_256 = Raise (RuntimeError DimMismatch).
Proof.
  apply (cif_channels_unchecked upstream_narrow zero_stack narrow_spec map_256 map_256);
    first [reflexivity | discriminate].
Defined.

(** ** do_test: the predicted class *)

Module Iron_water_facts.
Import Iron_water.

Lemma score_gt_nan (x : score) : score_gt x NaN = false.
Proof. now destruct x. Qed.

Lemma score_eq_nan (x : score) : score_eq x NaN = false.
Proof. now destruct x. Qed.

Lemma score_eq_num (x : score) (M : R) : score_eq x (Num M) = true <-> x = Num M.
Proof.
  destruct x as [| a]; simpl; [split; discriminate |].
  destruct (Req_dec_T a M) as [-> | Hne]; split; try reflexivity; try discriminate.
  intros H. injection H as H. contradiction.
Qed.

(** A maximum that starts as NaN stays NaN: nothing is greater. *)
Lemma max_from_nan (row : list score) : max_from NaN row = NaN.
Proof.
  induction row as [| a row IH]; [reflexivity |].
  simpl. now rewrite score_gt_nan.
Qed.

(** A maximum that starts as a number is the largest number of the row;
    the NaN entries are passed over. *)
Lemma max_from_num (m : R) (row : list score) :
  exists M, max_from (Num m) row = Num M /\ (m <= M)%R /\
            (forall r, In (Num r) row -> (r <= M)%R) /\
            (M = m \/ In (Num M) row).
Proof.
  revert m. induction row as [| a row IH]; intros m.
  - exists m. repeat split; [lra | contradiction | now left].
  - destruct a as [| a]; simpl.
    + destruct (IH m) as (M & HM & Hm & Hall & Hin). exists M.
      repeat split; try assumption.
      * intros r [Hr | Hr]; [discriminate | now apply Hall].
      * destruct Hin; [now left | right; now right].
    + destruct (Rlt_dec m a) as [Hlt | Hge].
      * destruct (IH a) as (M & HM & Hm & Hall & Hin). exists M.
        repeat split; [assumption | lra | |].
        -- intros r [Hr | Hr]; [injection Hr as <-; lra | now apply Hall].
        -- destruct Hin as [-> | Hin]; right; [now left | now right].
      * destruct (IH m) as (M & HM & Hm & Hall & Hin). exists M.
        repeat split; try assumption.
        -- intros r [Hr | Hr]; [injection Hr as <-; lra | now apply Hall].
        -- destruct Hin; [now left | right; now right].
Qed.

Lemma where_eq_nan (row : list score) (i : nat) : where_eq NaN row i = [].
Proof.
  revert i. induction row as [| a row IH]; intros i; [reflexivity |].
  simpl. now rewrite score_eq_nan.
Qed.

Lemma where_eq_first (M : R) (row : list score) (i : nat) :
  In (Num M) row ->
  exists k rest, where_eq (Num M) row i = (i + k) :: rest /\ k < length row /\
                 nth k row NaN = Num M /\ forall k', k' < k -> nth k' row NaN <> Num M.
Proof.
  revert i. induction row as [| a row IH]; intros i Hin; [contradiction |].
  simpl. destruct (score_eq a (Num M)) eqn:Heq.
  - apply score_eq_num in Heq. subst a.
    exists 0. eexists. repeat split; [f_equal; lia | simpl; lia | intros k' Hk'; lia].
  - assert (Hne : a <> Num M).
    { intros Ha. apply score_eq_num in Ha. congruence. }
    destruct Hin as [Ha | Hin]; [contradiction |].
    destruct (IH (S i) Hin) as (k & rest & Hw & Hk & Hn & Hbefore).
    exists (S k), rest. rewrite Hw. repeat split; [f_equal; lia | simpl; lia | exact Hn |].
    intros [| k'] Hk'; [exact Hne | apply Hbefore; lia].
Qed.

(** Lines 30-31 on a row that begins with a number. *)
Lemma predict_num (x : R) (row : list score) :
  exists i M, predict (Num x :: row) = Done i /\
              i < length (Num x :: row) /\
              nth i (Num x :: row) NaN = Num M /\
              (forall r, In (Num r) (Num x :: row) -> (r <= M)%R) /\
              (forall k, k < i -> nth k (Num x :: row) NaN <> Num M).
Proof.
  unfold predict, py_max, and_then.
  destruct (max_from_num x row) as (M & HM & Hx & Hall & Hin). rewrite HM.
  assert (HinM : In (Num M) (Num x :: row)).
  { destruct Hin as [-> | Hin]; [now left | now right]. }
  destruct (where_eq_first M (Num x :: row) 0 HinM) as (k & rest & Hw & Hk & Hn & Hbefore).
  rewrite Hw. exists k, M. simpl (0 + k).
  repeat split; try assumption.
  intros r [Hr | Hr]; [injection Hr as <-; exact Hx | now apply Hall].
Qed.

Lemma predict_nan (row : list score) : predict (NaN :: row) = Fail IndexError.
Proof.
  unfold predict, py_max, and_then. rewrite max_from_nan.
  simpl. now rewrite where_eq_nan.
Qed.

Lemma predict_numeric_head (row : list score) :
  numeric_head row = true ->
  predict row = Done (predicted {| scores := row; label := 0 |}).
Proof.
  destruct row as [| [| x] row]; try discriminate. intros _.
  destruct (predict_num x row) as (i & M & Hi & _).
  unfold predicted. cbn [scores]. now rewrite Hi.
Qed.

Lemma predict_other_head (row : list score) :
  numeric_head row = false ->
  predict row = Fail (match row with [] => ValueError | _ => IndexError end).
Proof.
  destruct row as [| [| x] row]; try discriminate; intros _;
    [reflexivity | apply predict_nan].
Qed.

End Iron_water_facts.

(** X16.  Lines 30-31 of [do_test], [np.where(row == max(row))[0][0]]: on a
    row that begins with a number they give the first index of the largest
    number of the row, the NaN entries being passed over; on a row that
    begins with NaN they raise [IndexError], since [max] is then NaN and
    nothing equals it; on an empty row they raise the [ValueError] of
    [max]. *)
Theorem predict_first_maximum :
  Iron_water.predict [] = Iron_water.Fail Iron_water.ValueError /\
  (forall row, Iron_water.predict (Iron_water.NaN :: row)
               = Iron_water.Fail Iron_water.IndexError) /\
  (forall x rest, let row := Iron_water.Num x :: rest in
     exists i M, Iron_water.predict row = Iron_water.Done i /\
                 i < length row /\
                 nth i row Iron_water.NaN = Iron_water.Num M /\
                 (forall r, In (Iron_water.Num r) row -> (r <= M)%R) /\
                 (forall k, k < i -> nth k row Iron_water.NaN <> Iron_water.Num M)).
Proof.
  split; [reflexivity |]. split; [apply Iron_water_facts.predict_nan |].
  intros x rest row. apply Iron_water_facts.predict_num.
Qed.

(** ** do_test: the two lists, the accuracy, the average precisions *)

Lemma collect_app (before rest : list Iron_water.item) (result_list : list nat)
    (label_list : list Z) :
  Forall (fun d => Iron_water.numeric_head (Iron_water.scores d) = true) before ->
  Iron_water.collect (before ++ rest) result_list label_list =
  Iron_water.collect rest (result_list ++ map Iron_water.predicted before)
                          (label_list ++ map Iron_water.label before).
Proof.
  revert result_list label_list.
  induction before as [| d before IH]; intros rl ll Hall; simpl.
  - now rewrite !app_nil_r.
  - inversion Hall as [| ? ? Hd Hrest]; subst.
    rewrite (Iron_water_facts.predict_numeric_head _ Hd). cbn [Iron_water.and_then].
    rewrite IH by assumption. now rewrite <- !app_assoc.
Qed.

Lemma collect_done (test_data : list Iron_water.item) (result_list : list nat)
    (label_list : list Z) :
  Forall (fun d => Iron_water.numeric_head (Iron_water.scores d) = true) test_data ->
  Iron_water.collect test_data result_list label_list =
  Iron_water.Done (result_list ++ map Iron_water.predicted test_data,
                   label_list ++ map Iron_water.label test_data).
Proof.
  intros Hall. rewrite <- (app_nil_r test_data) at 1.
  now rewrite collect_app.
Qed.

(** The loop stops at the first row that does not begin with a number. *)
Lemma collect_stops (before after : list Iron_water.item) (d : Iron_water.item)
    (result_list : list nat) (label_list : list Z) :
  Forall (fun d => Iron_water.numeric_head (Iron_water.scores d) = true) before ->
  Iron_water.numeric_head (Iron_water.scores d) = false ->
  Iron_water.collect (before ++ d :: after) result_list label_list =
  Iron_water.Fail (match Iron_water.scores d with
                   | [] => Iron_water.ValueError
                   | _ => Iron_water.IndexError
                   end).
Proof.
  intros Hall Hd. rewrite collect_app by assumption. simpl.
  now rewrite (Iron_water_facts.predict_other_head _ Hd).
Qed.

Lemma firstn_snoc_default {A} (d : A) (l : list A) (n : nat) :
  n < length l -> firstn (S n) l = firstn n l ++ [nth n l d].
Proof.
  revert l. induction n as [| n IH]; intros l Hn; destruct l as [| x l];
    simpl in *; try lia; [reflexivity |].
  f_equal. apply IH. lia.
Qed.

(** A loop over [range(len(l))] that reads [l[j]] visits the elements of
    [l] in order. *)
Lemma fold_indices {A S} (d : A) (step : S -> A -> S) (l : list A) (n : nat) (s : S) :
  n <= length l ->
  fold_left (fun st j => step st (nth j l d)) (seq 0 n) s = fold_left step (firstn n l) s.
Proof.
  induction n as [| n IH]; intros Hn; [reflexivity |].
  rewrite seq_S, fold_left_app, IH by lia. simpl.
  rewrite (firstn_snoc_default d) by lia. now rewrite fold_left_app.
Qed.

Lemma fold_left_pointwise {A S} (f g : S -> A -> S) (l : list A) (s : S) :
  (forall st a, f st a = g st a) -> fold_left f l s = fold_left g l s.
Proof.
  intros H. revert s. induction l as [| a l IH]; intros s; simpl; [reflexivity |].
  now rewrite H, IH.
Qed.

Lemma nth_predicted (test_data : list Iron_water.item) (j : nat) :
  nth j (map Iron_water.predicted test_data) 0 = Iron_water.predicted (nth j test_data no_item).
Proof. change 0 with (Iron_water.predicted no_item). apply map_nth. Qed.

Lemma nth_label (test_data : list Iron_water.item) (j : nat) :
  nth j (map Iron_water.label test_data) 0%Z = Iron_water.label (nth j test_data no_item).
Proof. change 0%Z with (Iron_water.label no_item). apply map_nth. Qed.

Lemma count_correct_hits (test_data : list Iron_water.item) :
  Iron_water.count_correct (map Iron_water.predicted test_data)
                           (map Iron_water.label test_data)
  = length (List.filter Iron_water.hit test_data).
Proof.
  unfold Iron_water.count_correct. rewrite length_map.
  set (step := fun (correct : nat) (d : Iron_water.item) =>
                 if Iron_water.hit d then correct + 1 else correct).
  rewrite (fold_left_pointwise _ (fun st j => step st (nth j test_data no_item))).
  - rewrite fold_indices, firstn_all by lia.
    assert (H : forall n, fold_left step test_data n
                          = n + length (List.filter Iron_water.hit test_data)).
    { induction test_data as [| d l IH]; intros n; simpl; [lia |].
      rewrite IH. unfold step. destruct (Iron_water.hit d); simpl; lia. }
    apply H.
  - intros st j. unfold step, Iron_water.hit. now rewrite nth_predicted, nth_label.
Qed.

Lemma append_indicators_closed (i : Z) (test_data : list Iron_water.item)
    (ap_label ap_result : list Z) :
  Iron_water.append_indicators i (map Iron_water.predicted test_data)
    (map Iron_water.label test_data) ap_label ap_result
  = (ap_label ++ map (fun d => if Iron_water.is_label d i then 1%Z else 0%Z) test_data,
     ap_result ++ map (fun d => if Iron_water.is_predicted d i then 1%Z else 0%Z) test_data).
Proof.
  unfold Iron_water.append_indicators. rewrite length_map.
  set (step := fun (st : list Z * list Z) (d : Iron_water.item) =>
                 (fst st ++ [if Iron_water.is_label d i then 1%Z else 0%Z],
                  snd st ++ [if Iron_water.is_predicted d i then 1%Z else 0%Z])).
  rewrite (fold_left_pointwise _ (fun st j => step st (nth j test_data no_item))).
  - rewrite fold_indices, firstn_all by lia.
    revert ap_label ap_result.
    induction test_data as [| d l IH]; intros al ar; simpl.
    + now rewrite !app_nil_r.
    + unfold step at 2. cbn [fst snd]. rewrite IH. now rewrite <- !app_assoc.
  - intros st j. unfold step, Iron_water.is_label, Iron_water.is_predicted.
    now rewrite nth_predicted, nth_label.
Qed.

Section Average_precision.
Variable average_precision_score : list Z -> list Z -> R.
Variable test_data : list Iron_water.item.

Let L (c : Z) : list Z :=
  map (fun d => if Iron_water.is_label d c then 1%Z else 0%Z) test_data.
Let P (c : Z) : list Z :=
  map (fun d => if Iron_water.is_predicted d c then 1%Z else 0%Z) test_data.

(** The lists grow from class to class; the score of the class at
    position [k] is computed on what has been appended so far. *)
Lemma ap_loop_closed (classes : list Z) (ap_label ap_result : list Z) (ap_list : list R) :
  Iron_water.ap_loop average_precision_score classes
    (map Iron_water.predicted test_data) (map Iron_water.label test_data)
    ap_label ap_result ap_list
  = (ap_label ++ flat_map L classes, ap_result ++ flat_map P classes,
     ap_list ++ map (fun k => average_precision_score
                                (ap_label ++ flat_map L (firstn (S k) classes))
                                (ap_result ++ flat_map P (firstn (S k) classes)))
                    (seq 0 (length classes))).
Proof.
  unfold Iron_water.ap_loop. revert ap_label ap_result ap_list.
  induction classes as [| c classes IH]; intros al ar apl.
  - simpl. now rewrite !app_nil_r.
  - cbn [fold_left]. rewrite append_indicators_closed. fold (L c) (P c).
    rewrite IH. cbn [length flat_map]. rewrite <- !app_assoc. f_equal.
    cbn [seq map app]. rewrite <- seq_shift, map_map.
    cbn [firstn flat_map]. rewrite !app_nil_r. f_equal. f_equal.
    apply map_ext. intros k. cbn [firstn flat_map]. now rewrite <- !app_assoc.
Qed.
End Average_precision.

Lemma length_indicators_up_to {A} (is_class : A -> Z -> bool) (l : list A) (i : nat) :
  length (Iron_water.indicators_up_to is_class l i) = S i * length l.
Proof.
  unfold Iron_water.indicators_up_to.
  assert (H : forall cs : list Z,
    length (flat_map (fun c => map (fun a => if is_class a c then 1%Z else 0%Z) l) cs)
    = length cs * length l).
  { induction cs as [| c cs IH]; [reflexivity |].
    cbn [flat_map length]. rewrite length_app, length_map, IH. lia. }
  now rewrite H, length_map, length_seq.
Qed.

Lemma firstn_seq_le (s k n : nat) : k <= n -> firstn k (seq s n) = seq s k.
Proof.
  revert s n. induction k as [| k IH]; intros s n Hk; [reflexivity |].
  destruct n as [| n]; [lia |]. simpl. f_equal. apply IH. lia.
Qed.

Lemma nth_map_seq (F : nat -> R) (n i : nat) :
  i < n -> nth i (map F (seq 0 n)) 0%R = F i.
Proof.
  intros Hi. rewrite nth_indep with (d' := F 0) by now rewrite length_map, length_seq.
  rewrite (map_nth F). now rewrite seq_nth.
Qed.

Section Report.
Variable f1_score : list Z -> list nat -> string -> R.
Variable average_precision_score : list Z -> list Z -> R.

(** [do_test] on items whose rows all begin with a number. *)
Lemma do_test_closed (test_data : list Iron_water.item) :
  test_data <> [] ->
  Forall (fun d => Iron_water.numeric_head (Iron_water.scores d) = true) test_data ->
  Iron_water.do_test f1_score average_precision_score test_data =
  Iron_water.Done
    {| Iron_water.accuracy :=
         (INR (length (List.filter Iron_water.hit test_data)) / INR (length test_data))%R;
       Iron_water.micro_f1_score :=
         f1_score (map Iron_water.label test_data) (map Iron_water.predicted test_data) "micro";
       Iron_water.macro_f1_score :=
         f1_score (map Iron_water.label test_data) (map Iron_water.predicted test_data) "macro";
       Iron_water.ap_list :=
         map (fun k => average_precision_score
                         (Iron_water.indicators_up_to Iron_water.is_label test_data k)
                         (Iron_water.indicators_up_to Iron_water.is_predicted test_data k))
             (seq 0 10);
       Iron_water.mAP :=
         Iron_water.mean
           (map (fun k => average_precision_score
                            (Iron_water.indicators_up_to Iron_water.is_label test_data k)
                            (Iron_water.indicators_up_to Iron_water.is_predicted test_data k))
                (seq 0 10)) |}.
Proof.
  intros Hne Hall. unfold Iron_water.do_test.
  rewrite collect_done by assumption. cbn [Iron_water.and_then app].
  rewrite count_correct_hits, length_map. unfold Iron_water.divide.
  destruct (Nat.eqb_spec (length test_data) 0) as [H0 | H0];
    [destruct test_data; [congruence | discriminate] |].
  cbn [Iron_water.and_then]. rewrite ap_loop_closed. cbn [app].
  rewrite length_map, length_seq.
  assert (Hap : forall (g : list Z -> list Z -> R),
    map (fun k => g
      (flat_map (fun c => map (fun d => if Iron_water.is_label d c then 1%Z else 0%Z) test_data)
                (firstn (S k) (map Z.of_nat (seq 0 10))))
      (flat_map (fun c => map (fun d => if Iron_water.is_predicted d c then 1%Z else 0%Z) test_data)
                (firstn (S k) (map Z.of_nat (seq 0 10))))) (seq 0 10)
    = map (fun k => g (Iron_water.indicators_up_to Iron_water.is_label test_data k)
                      (Iron_water.indicators_up_to Iron_water.is_predicted test_data k))
          (seq 0 10)).
  { intros g. apply map_ext_in. intros k Hk. apply in_seq in Hk.
    unfold Iron_water.indicators_up_to.
    rewrite firstn_map, firstn_seq_le by lia. reflexivity. }
  rewrite Hap. reflexivity.
Qed.

End Report.

Lemma Done_inj {A} (a b : A) : Iron_water.Done a = Iron_water.Done b -> a = b.
Proof. now injection 1. Qed.

Lemma first_other_row (test_data : list Iron_water.item) :
  Forall (fun d => Iron_water.numeric_head (Iron_water.scores d) = true) test_data \/
  exists before d after,
    test_data = before ++ d :: after /\
    Forall (fun d => Iron_water.numeric_head (Iron_water.scores d) = true) before /\
    Iron_water.numeric_head (Iron_water.scores d) = false.
Proof.
  induction test_data as [| d l IH]; [left; constructor |].
  destruct (Iron_water.numeric_head (Iron_water.scores d)) eqn:Hd.
  - destruct IH as [IH | (before & d' & after & -> & Hall & Hd')].
    + left. now constructor.
    + right. exists (d :: before), d', after. repeat split; [| assumption].
      now constructor.
  - right. exists [], d, l. repeat split; [constructor | assumption].
Qed.

Lemma do_test_stops f1_score average_precision_score
    (before after : list Iron_water.item) (d : Iron_water.item) :
  Forall (fun d => Iron_water.numeric_head (Iron_water.scores d) = true) before ->
  Iron_water.numeric_head (Iron_water.scores d) = false ->
  Iron_water.do_test f1_score average_precision_score (before ++ d :: after)
  = Iron_water.Fail (match Iron_water.scores d with
                     | [] => Iron_water.ValueError
                     | _ => Iron_water.IndexError
                     end).
Proof.
  intros Hall Hd. unfold Iron_water.do_test. now rewrite collect_stops.
Qed.

Lemma do_test_done_inv f1_score average_precision_score (test_data : list Iron_water.item)
    (r : Iron_water.report) :
  Iron_water.do_test f1_score average_precision_score test_data = Iron_water.Done r ->
  test_data <> [] /\
  Forall (fun d => Iron_water.numeric_head (Iron_water.scores d) = true) test_data.
Proof.
  intros H. destruct (first_other_row test_data) as [Hall | (before & d & after & -> & Hall & Hd)].
  - split; [| assumption]. intros ->. discriminate H.
  - rewrite do_test_stops in H by assumption. discriminate.
Qed.

(** X17.  [do_test] prints its report exactly when the test set is not
    empty and the score row of every item begins with a number.  It stops
    at the first item whose row does not: an empty row makes line 30 raise
    the [ValueError] of [max()], a row that begins with NaN makes line 31
    index an empty array.  An empty test set makes line 37 divide by
    zero. *)
Theorem do_test_outcome f1_score average_precision_score (test_data : list Iron_water.item) :
  match Iron_water.do_test f1_score average_precision_score test_data with
  | Iron_water.Done _ =>
      test_data <> [] /\
      Forall (fun d => Iron_water.numeric_head (Iron_water.scores d) = true) test_data
  | Iron_water.Fail Iron_water.ValueError =>
      exists before d after,
        test_data = before ++ d :: after /\
        Forall (fun d => Iron_water.numeric_head (Iron_water.scores d) = true) before /\
        Iron_water.scores d = []
  | Iron_water.Fail Iron_water.IndexError =>
      exists before d after row,
        test_data = before ++ d :: after /\
        Forall (fun d => Iron_water.numeric_head (Iron_water.scores d) = true) before /\
        Iron_water.scores d = Iron_water.NaN :: row
  | Iron_water.Fail Iron_water.ZeroDivisionError => test_data = []
  end.
Proof.
  destruct (first_other_row test_data) as [Hall | (before & d & after & -> & Hall & Hd)].
  - destruct test_data as [| d l]; [reflexivity |].
    rewrite do_test_closed by (assumption || discriminate). split; [discriminate | assumption].
  - rewrite do_test_stops by assumption.
    destruct (Iron_water.scores d) as [| [| x] row] eqn:Hrow; try discriminate.
    + exists before, d, after. repeat split; assumption.
    + exists before, d, after, row. repeat split; assumption.
Qed.

Lemma filter_all {A} (f : A -> bool) (l : list A) :
  length (List.filter f l) = length l <-> Forall (fun a => f a = true) l.
Proof.
  induction l as [| a l IH]; simpl; [split; [constructor | reflexivity] |].
  pose proof (filter_length_le f l) as Hle.
  destruct (f a) eqn:Ha; simpl; split; intros H.
  - constructor; [assumption | apply IH; lia].
  - inversion H; subst. f_equal. now apply IH.
  - lia.
  - inversion H; subst. congruence.
Qed.

(** X18.  The accuracy [do_test] prints is the share of the items whose
    predicted class (the first index of the largest score) is their
    label; it lies between 0 and 1, and it is 1 exactly when every item is
    predicted right. *)
Theorem do_test_accuracy f1_score average_precision_score
    (test_data : list Iron_water.item) (r : Iron_water.report) :
  Iron_water.do_test f1_score average_precision_score test_data = Iron_water.Done r ->
  Iron_water.accuracy r
  = (INR (length (List.filter Iron_water.hit test_data)) / INR (length test_data))%R /\
  (0 <= Iron_water.accuracy r <= 1)%R /\
  (Iron_water.accuracy r = 1%R <-> Forall (fun d => Iron_water.hit d = true) test_data).
Proof.
  intros H. destruct (do_test_done_inv _ _ _ _ H) as [Hne Hall].
  rewrite do_test_closed in H by assumption. apply Done_inj in H. subst r.
  cbn [Iron_water.accuracy].
  set (hits := length (List.filter Iron_water.hit test_data)).
  set (n := length test_data).
  assert (Hle : hits <= n) by apply filter_length_le.
  assert (Hn : 0 < n) by (unfold n; destruct test_data; [congruence | simpl; lia]).
  assert (HRn : (0 < INR n)%R) by (apply lt_0_INR; lia).
  assert (HRle : (INR hits <= INR n)%R) by now apply le_INR.
  assert (HR0 : (0 <= INR hits)%R) by apply pos_INR.
  split; [reflexivity |]. split; [split |].
  - apply Rmult_le_reg_r with (r := INR n); [assumption |].
    unfold Rdiv. rewrite Rmult_assoc, Rinv_l by lra. lra.
  - apply Rmult_le_reg_r with (r := INR n); [assumption |].
    unfold Rdiv. rewrite Rmult_assoc, Rinv_l by lra. lra.
  - rewrite <- filter_all. fold hits n. split; intros Heq.
    + apply INR_eq. apply (Rmult_eq_compat_r (INR n)) in Heq.
      unfold Rdiv in Heq. rewrite Rmult_assoc, Rinv_l in Heq by lra. lra.
    + rewrite Heq. field. lra.
Qed.

Lemma three_items_report f1_score average_precision_score :
  exists r, Iron_water.do_test f1_score average_precision_score Iron_water.three_items
            = Iron_water.Done r.
Proof.
  eexists. apply do_test_closed; [discriminate |].
  repeat constructor.
Qed.

Lemma do_test_accuracy_witness :
  exists r, Iron_water.do_test Iron_water.no_f1 Iron_water.share_of_ones
              Iron_water.three_items = Iron_water.Done r /\
            (0 <= Iron_water.accuracy r <= 1)%R.
Proof.
  destruct (three_items_report Iron_water.no_f1 Iron_water.share_of_ones) as [r Hr].
  exists r. split; [exact Hr |].
  exact (proj1 (proj2 (do_test_accuracy _ _ _ r Hr))).
Defined.

(** X19.  The indicator lists of lines 44-45 are never emptied between
    the classes: the value [do_test] stores for class i is
    [average_precision_score] of the indicators of the classes 0 to i
    together, that is of (i + 1) * n entries for n items; ten values are
    stored and mAP is their mean. *)
Theorem do_test_average_precisions f1_score average_precision_score
    (test_data : list Iron_water.item) (r : Iron_water.report) :
  Iron_water.do_test f1_score average_precision_score test_data = Iron_water.Done r ->
  length (Iron_water.ap_list r) = 10 /\
  Iron_water.mAP r = (Rsum (Iron_water.ap_list r) / 10)%R /\
  forall i, i < 10 ->
    nth i (Iron_water.ap_list r) 0%R
    = average_precision_score
        (Iron_water.indicators_up_to Iron_water.is_label test_data i)
        (Iron_water.indicators_up_to Iron_water.is_predicted test_data i) /\
    length (Iron_water.indicators_up_to Iron_water.is_label test_data i)
    = S i * length test_data /\
    length (Iron_water.indicators_up_to Iron_water.is_predicted test_data i)
    = S i * length test_data.
Proof.
  intros H. destruct (do_test_done_inv _ _ _ _ H) as [Hne Hall].
  rewrite do_test_closed in H by assumption. apply Done_inj in H. subst r.
  cbn [Iron_water.ap_list Iron_water.mAP]. split; [now rewrite length_map, length_seq |].
  split.
  - unfold Iron_water.mean. rewrite length_map, length_seq. f_equal.
    simpl. lra.
  - intros i Hi. rewrite nth_map_seq by assumption.
    split; [reflexivity |]. split; apply length_indicators_up_to.
Qed.

Lemma do_test_average_precisions_witness :
  exists r, Iron_water.do_test Iron_water.no_f1 Iron_water.share_of_ones
              Iron_water.three_items = Iron_water.Done r /\
            length (Iron_water.ap_list r) = 10 /\
            length (Iron_water.indicators_up_to Iron_water.is_label
                      Iron_water.three_items 9) = 30.
Proof.
  destruct (three_items_report Iron_water.no_f1 Iron_water.share_of_ones) as [r Hr].
  destruct (do_test_average_precisions _ _ _ r Hr) as (Hlen & _ & Hcls).
  exists r. split; [exact Hr |]. split; [exact Hlen |].
  exact (proj1 (proj2 (Hcls 9 (le_n 10)))).
Defined.

(** ** do_train: the schedule of the loop *)

Lemma checkpointed_app (t1 t2 : list Iron_water.event) :
  Iron_water.checkpointed (t1 ++ t2) = Iron_water.checkpointed t1 ++ Iron_water.checkpointed t2.
Proof. apply flat_map_app. Qed.

Lemma printed_app (t1 t2 : list Iron_water.event) :
  Iron_water.printed (t1 ++ t2) = Iron_water.printed t1 ++ Iron_water.printed t2.
Proof. apply flat_map_app. Qed.

Lemma checkpointed_writers (writers : list nat) :
  Iron_water.checkpointed (map Iron_water.WriterWrite writers) = [].
Proof. induction writers as [| w l IH]; [reflexivity | exact IH]. Qed.

Lemma printed_writers (writers : list nat) :
  Iron_water.printed (map Iron_water.WriterWrite writers) = [].
Proof. induction writers as [| w l IH]; [reflexivity | exact IH]. Qed.

Lemma checkpointed_step (writers : list nat) (start_iter max_iter : Z) (data : nat)
    (iteration : Z) :
  Iron_water.checkpointed (Iron_water.train_step writers start_iter max_iter data iteration)
  = [iteration].
Proof.
  unfold Iron_water.train_step. rewrite !checkpointed_app.
  destruct (Iron_water.logs iteration start_iter max_iter).
  - rewrite checkpointed_app, checkpointed_writers. reflexivity.
  - reflexivity.
Qed.

Lemma printed_step (writers : list nat) (start_iter max_iter : Z) (data : nat)
    (iteration : Z) :
  Iron_water.printed (Iron_water.train_step writers start_iter max_iter data iteration)
  = if Iron_water.logs iteration start_iter max_iter then [iteration] else [].
Proof.
  unfold Iron_water.train_step. rewrite !printed_app.
  destruct (Iron_water.logs iteration start_iter max_iter).
  - rewrite printed_app, printed_writers. reflexivity.
  - reflexivity.
Qed.

Lemma checkpointed_loop (writers : list nat) (start_iter max_iter : Z)
    (train_data : list nat) (iteration : Z) :
  Iron_water.checkpointed
    (Iron_water.train_loop writers start_iter max_iter train_data iteration)
  = map (fun k => (iteration + Z.of_nat k)%Z)
        (seq 0 (Nat.min (length train_data) (Z.to_nat (max_iter - iteration)))).
Proof.
  revert iteration. induction train_data as [| d l IH]; intros it; [reflexivity |].
  cbn [Iron_water.train_loop length]. destruct (Z.ltb_spec it max_iter) as [Hlt | Hge].
  - rewrite checkpointed_app, checkpointed_step, IH.
    replace (Z.to_nat (max_iter - it)) with (S (Z.to_nat (max_iter - (it + 1)))) by lia.
    cbn [Nat.min seq map app]. f_equal; [f_equal; lia |].
    rewrite <- seq_shift, map_map. apply map_ext. intros k. lia.
  - replace (Z.to_nat (max_iter - it)) with 0 by lia. now rewrite Nat.min_0_r.
Qed.

Lemma printed_loop (writers : list nat) (start_iter max_iter : Z)
    (train_data : list nat) (iteration i : Z) :
  In i (Iron_water.printed
          (Iron_water.train_loop writers start_iter max_iter train_data iteration)) <->
  (iteration <= i < max_iter)%Z /\
  (i - iteration < Z.of_nat (length train_data))%Z /\
  Iron_water.logs i start_iter max_iter = true.
Proof.
  revert iteration. induction train_data as [| d l IH]; intros it.
  - simpl. split; [contradiction | lia].
  - cbn [Iron_water.train_loop length]. destruct (Z.ltb_spec it max_iter) as [Hlt | Hge].
    + rewrite printed_app, printed_step, in_app_iff, IH. split.
      * intros [H | H].
        -- destruct (Iron_water.logs it start_iter max_iter) eqn:Hl; [| contradiction].
           destruct H as [<- | []]. repeat split; (assumption || lia).
        -- destruct H as (H1 & H2 & H3). repeat split; (assumption || lia).
      * intros (H1 & H2 & H3). destruct (Z.eq_dec i it) as [-> | Hne].
        -- left. rewrite H3. now left.
        -- right. repeat split; (assumption || lia).
    + simpl. split; [contradiction | lia].
Qed.

Lemma logs_spec (i start_iter max_iter : Z) :
  Iron_water.logs i start_iter max_iter = true <->
  (start_iter + 6 <= i)%Z /\ (((i + 1) mod 20 = 0)%Z \/ i = (max_iter - 1)%Z).
Proof.
  unfold Iron_water.logs.
  rewrite andb_true_iff, orb_true_iff, Z.ltb_lt, !Z.eqb_eq. lia.
Qed.

Lemma written_writers (current : Z) (writers : list nat) (trace : list Iron_water.event) :
  Iron_water.written_from current (map Iron_water.WriterWrite writers ++ trace)
  = map (pair current) writers ++ Iron_water.written_from current trace.
Proof.
  induction writers as [| w l IH]; [reflexivity |].
  simpl. now rewrite IH.
Qed.

(** Whatever the storage held before, the writes of one pass of the loop
    carry the iteration of that pass, and so does the storage after it. *)
Lemma written_step (writers : list nat) (start_iter max_iter : Z) (data : nat)
    (iteration current : Z) (trace : list Iron_water.event) :
  Iron_water.written_from current
    (Iron_water.train_step writers start_iter max_iter data iteration ++ trace)
  = (if Iron_water.logs iteration start_iter max_iter
     then map (pair iteration) writers else [])
    ++ Iron_water.written_from iteration trace.
Proof.
  unfold Iron_water.train_step. cbn [app Iron_water.written_from].
  destruct (Iron_water.logs iteration start_iter max_iter).
  - rewrite <- !app_assoc. rewrite written_writers. reflexivity.
  - reflexivity.
Qed.

Lemma written_loop (writers : list nat) (start_iter max_iter : Z)
    (train_data : list nat) (iteration current i : Z) (w : nat) :
  In (i, w) (Iron_water.written_from current
               (Iron_water.train_loop writers start_iter max_iter train_data iteration)) <->
  (iteration <= i < max_iter)%Z /\
  (i - iteration < Z.of_nat (length train_data))%Z /\
  Iron_water.logs i start_iter max_iter = true /\
  In w writers.
Proof.
  revert iteration current. induction train_data as [| d l IH]; intros it current.
  - simpl. split; [contradiction | lia].
  - cbn [Iron_water.train_loop length]. destruct (Z.ltb_spec it max_iter) as [Hlt | Hge].
    + rewrite written_step, in_app_iff, IH. split.
      * intros [H | H].
        -- destruct (Iron_water.logs it start_iter max_iter) eqn:Hl; [| contradiction].
           apply in_map_iff in H. destruct H as (w' & Hw' & Hin).
           injection Hw' as <- <-. repeat split; (assumption || lia).
        -- destruct H as (H1 & H2 & H3 & H4). repeat split; (assumption || lia).
      * intros (H1 & H2 & H3 & H4). destruct (Z.eq_dec i it) as [-> | Hne].
        -- left. rewrite H3. now apply in_map.
        -- right. repeat split; (assumption || lia).
    + simpl. split; [contradiction | lia].
Qed.

(** X20.  [do_train] steps the periodic checkpointer once per batch, at
    the iterations start_iter, start_iter + 1, ... in this order, where
    start_iter is one more than the iteration stored in the checkpoint (0
    when none is stored); it stops with the batches or before max_iter,
    whichever comes first. *)
Theorem do_train_iterations (checkpoint : gmap string Z) (max_iter : Z)
    (writers train_data : list nat) :
  Iron_water.checkpointed (Iron_water.do_train checkpoint max_iter writers train_data)
  = map (fun k => (Iron_water.start_iter_of checkpoint + Z.of_nat k)%Z)
        (seq 0 (Nat.min (length train_data)
                        (Z.to_nat (max_iter - Iron_water.start_iter_of checkpoint)))) /\
  (checkpoint !! "iteration" = None -> Iron_water.start_iter_of checkpoint = 0%Z) /\
  (forall i, checkpoint !! "iteration" = Some i ->
             Iron_water.start_iter_of checkpoint = (i + 1)%Z).
Proof.
  split; [apply checkpointed_loop |].
  unfold Iron_water.start_iter_of. split.
  - intros ->. reflexivity.
  - intros i ->. reflexivity.
Qed.

(** X21.  [do_train] writes and prints only from its seventh iteration
    on: every iteration that is printed, and every iteration at which a
    writer writes (the iteration the event storage holds at that moment),
    is at least start_iter + 6, below max_iter, and either the last
    iteration max_iter - 1 or one less than a multiple of 20; the writer
    is one of [writers].  A run over at most six iterations writes and
    prints nothing. *)
Theorem do_train_prints_late (checkpoint : gmap string Z) (max_iter : Z)
    (writers train_data : list nat) (i : Z) :
  let trace := Iron_water.do_train checkpoint max_iter writers train_data in
  let start_iter := Iron_water.start_iter_of checkpoint in
  In i (Iron_water.printed trace) \/
  (exists w, In (i, w) (Iron_water.written_from start_iter trace)) ->
  (start_iter + 6 <= i < max_iter)%Z /\
  (((i + 1) mod 20 = 0)%Z \/ i = (max_iter - 1)%Z) /\
  (forall w, In (i, w) (Iron_water.written_from start_iter trace) -> In w writers).
Proof.
  intros trace start_iter H.
  assert (Hlogs : (start_iter <= i < max_iter)%Z /\
                  Iron_water.logs i start_iter max_iter = true).
  { destruct H as [H | [w H]].
    - apply printed_loop in H. tauto.
    - apply written_loop in H. tauto. }
  destruct Hlogs as [Hrange Hlogs]. apply logs_spec in Hlogs.
  split; [lia |]. split; [tauto |].
  intros w Hw. apply written_loop in Hw. tauto.
Qed.

Lemma do_train_prints_late_witness :
  (Iron_water.start_iter_of Iron_water.fresh_checkpoint + 6 <= 6 < 7)%Z /\
  (((6 + 1) mod 20 = 0)%Z \/ 6%Z = (7 - 1)%Z) /\
  (forall w,
     In (6%Z, w)
        (Iron_water.written_from (Iron_water.start_iter_of Iron_water.fresh_checkpoint)
           (Iron_water.do_train Iron_water.fresh_checkpoint 7 [0] Iron_water.seven_batches)) ->
     In w [0]).
Proof.
  apply (do_train_prints_late Iron_water.fresh_checkpoint 7 [0] Iron_water.seven_batches 6).
  right. exists 0. vm_compute. left. reflexivity.
Defined.

(** X22.  A run that is not cut short by its data and lasts more than six
    iterations logs its last iteration, max_iter - 1: it is printed, and
    every writer of [writers] writes at it.  On a process that is not the
    main one [writers] is empty, and the print is all there is. *)
Theorem do_train_prints_last (checkpoint : gmap string Z) (max_iter : Z)
    (writers train_data : list nat) :
  let trace := Iron_water.do_train checkpoint max_iter writers train_data in
  let start_iter := Iron_water.start_iter_of checkpoint in
  (start_iter + 6 < max_iter)%Z ->
  (max_iter - start_iter <= Z.of_nat (length train_data))%Z ->
  In (max_iter - 1)%Z (Iron_water.printed trace) /\
  (forall w, In w writers ->
             In ((max_iter - 1)%Z, w) (Iron_water.written_from start_iter trace)).
Proof.
  intros trace start_iter Hlong Hdata. split.
  - apply printed_loop. rewrite logs_spec. lia.
  - intros w Hw. apply written_loop. rewrite logs_spec. repeat split; (assumption || lia).
Qed.

Lemma do_train_prints_last_witness :
  In (7 - 1)%Z
     (Iron_water.printed
        (Iron_water.do_train Iron_water.fresh_checkpoint 7 [0] Iron_water.seven_batches)) /\
  (forall w, In w [0] ->
     In ((7 - 1)%Z, w)
        (Iron_water.written_from (Iron_water.start_iter_of Iron_water.fresh_checkpoint)
           (Iron_water.do_train Iron_water.fresh_checkpoint 7 [0] Iron_water.seven_batches))).
Proof.
  apply (do_train_prints_last Iron_water.fresh_checkpoint 7 [0] Iron_water.seven_batches);
    vm_compute; (reflexivity || discriminate).
Defined.

(** X23.  Resuming from a checkpoint of the last iteration or later does
    nothing: no batch is fed to the model and no step is taken. *)
Theorem do_train_finished (checkpoint : gmap string Z) (max_iter : Z)
    (writers train_data : list nat) (i : Z) :
  checkpoint !! "iteration" = Some i -> (max_iter - 1 <= i)%Z ->
  Iron_water.do_train checkpoint max_iter writers train_data = [].
Proof.
  intros Hi Hdone. unfold Iron_water.do_train, Iron_water.start_iter_of. rewrite Hi.
  cbv zeta. destruct train_data as [| d l]; [reflexivity |].
  cbn [Iron_water.train_loop]. destruct (Z.ltb_spec (i + 1) max_iter); [lia | reflexivity].
Qed.

Lemma do_train_finished_witness :
  Iron_water.do_train Iron_water.last_checkpoint 100 [0] Iron_water.seven_batches = [].
Proof.
  apply (do_train_finished Iron_water.last_checkpoint 100 [0] Iron_water.seven_batches 99);
    [reflexivity | vm_compute; discriminate].
Defined.

(** ** MultiHeadAttention: the elements of a batch *)

Section Batch.
Variable m : MultiHeadAttention.t.
Variables x x' : Tensor3.
Variables b b' : nat.
Hypothesis Htokens : a1 x' = a1 x.
Hypothesis Hwidth : a2 x' = a2 x.
Hypothesis Hb : b < a0 x.
Hypothesis Hb' : b' < a0 x'.
Hypothesis Hsame : forall s c, s < a1 x -> c < a2 x -> get3 x b s c = get3 x' b' s c.

Lemma project_batch (W : Linear) (s e : nat) :
  s < a1 x -> Steps.project W x b s e = Steps.project W x' b' s e.
Proof.
  intros Hs. unfold Steps.project. rewrite Hwidth. apply sum_n_ext. intros k Hk.
  now rewrite Hsame.
Qed.

Lemma head_context_batch (h s j : nat) :
  s < a1 x ->
  Steps.head_context m x x x b h s j = Steps.head_context m x' x' x' b' h s j.
Proof.
  intros Hs. unfold Steps.head_context. rewrite Htokens.
  apply attention_row_ext; intros; unfold Steps.head; now apply project_batch.
Qed.

Lemma merged_batch (s e : nat) :
  s < a1 x -> e < MultiHeadAttention.n_heads m * MultiHeadAttention.d_v m ->
  get3 (Steps.merged m x x x) b s e = get3 (Steps.merged m x' x' x') b' s e.
Proof.
  intros Hs He.
  set (dv := MultiHeadAttention.d_v m) in *.
  assert (Hdv : 0 < dv) by (destruct dv; lia).
  assert (Hh : e / dv < MultiHeadAttention.n_heads m)
    by (apply Nat.Div0.div_lt_upper_bound; lia).
  assert (Hj : e mod dv < dv) by (apply Nat.mod_upper_bound; lia).
  rewrite (Nat.div_mod_eq e dv), (Nat.mul_comm dv).
  unfold dv in *. rewrite !get3_merged; try assumption; [| lia].
  now apply head_context_batch.
Qed.

Lemma composition_batch (s c : nat) :
  s < a1 x -> c < a2 x ->
  get3 (Steps.composition m x x x) b s c = get3 (Steps.composition m x' x' x') b' s c.
Proof.
  intros Hs Hc. unfold Steps.composition.
  rewrite !get3_tab3 by (assumption || lia). rewrite Hwidth.
  apply normalized_ext; [| assumption]. intros c' Hc'. f_equal.
  - unfold Steps.project. cbn [a2 Steps.merged]. apply sum_n_ext. intros e He.
    f_equal. now apply merged_batch.
  - now apply Hsame.
Qed.
End Batch.

(** X24.  The elements of a batch do not interact in self-attention: when
    element b of one batch and element b' of another hold the same token
    sequence, [forward] gives them the same output, whatever else the two
    batches hold. *)
Theorem mha_batch_elements_independent (d_model dk dv heads : nat)
    (m : MultiHeadAttention.t) (x x' : Tensor3) (b b' : nat) :
  mha_configured d_model dk dv heads m = true ->
  0 < dk -> 0 < dv -> 0 < heads ->
  a2 x = d_model -> a2 x' = d_model -> a1 x' = a1 x ->
  b < a0 x -> b' < a0 x' ->
  (forall s c, s < a1 x -> c < d_model -> get3 x b s c = get3 x' b' s c) ->
  exists y y',
    MultiHeadAttention.forward m x x x = Ok y /\
    MultiHeadAttention.forward m x' x' x' = Ok y' /\
    forall s c, s < a1 x -> c < d_model -> get3 y b s c = get3 y' b' s c.
Proof.
  intros Hc Hdk Hdv Hh Hx Hx' Ht Hb Hb' Hsame. do 2 eexists.
  split; [apply (mha_forward_closed d_model dk dv heads); (assumption || reflexivity || lia) |].
  split; [apply (mha_forward_closed d_model dk dv heads); (assumption || reflexivity || lia) |].
  intros s c Hs Hc'. apply composition_batch; try assumption; try lia.
  intros s0 c0 Hs0 Hc0. apply Hsame; [assumption | lia].
Qed.

Lemma mha_batch_elements_independent_witness :
  exists y y',
    MultiHeadAttention.forward default_mha two_tokens two_tokens two_tokens = Ok y /\
    MultiHeadAttention.forward default_mha two_batches two_batches two_batches = Ok y' /\
    forall s c, s < 2 -> c < 512 -> get3 y 0 s c = get3 y' 1 s c.
Proof.
  apply (mha_batch_elements_independent 512 64 64 8 default_mha two_tokens two_batches 0 1);
    first [apply mha_init_configured | reflexivity | lia | exact (le_n 1) | exact (le_n 2)].
Defined.

(** * Exact arithmetic *)

(** The two facts of this part rest on laws of the real numbers that
    float32 does not have: a sum does not depend on the order of its terms,
    and x / x is 1.  They describe the exact formulas that the code
    approximates, not the float32 tensors it returns, in which the same
    equalities hold up to rounding only, and not at all once a score
    overflows.  The specification states both as exact properties of the
    results (its claims C6 and C7). *)

(** Over the reals, for Q, K and positive d_k for which the weights are
    computed and the key axis is not empty, the softmax of the scaled
    scores sums to 1 along the key axis for every batch element, every
    head and every query position. *)
Theorem attention_weights_sum_to_one (Q K : Tensor4) (d_k : R) (a : Tensor4) :
  ScaledDotProductAttention.attn Q K d_k = Ok a ->
  (0 < d_k)%R ->
  0 < b2 K ->
  forall b h i, b < b0 a -> h < b1 a -> i < b2 a ->
  sum_n (b3 a) (fun t => get4 a b h i t) = 1%R.
Proof.
  intros Ha _ HK b h i Hb Hh Hi.
  destruct (attn_sizes Q K d_k a Ha) as [_ Hk].
  unfold ScaledDotProductAttention.attn in Ha.
  destruct (matmul Q (transpose_last K)) as [qk | e]; [| discriminate].
  cbn [bind] in Ha. injection Ha as <-.
  apply softmax_last_row; try assumption.
  rewrite <- Hk in HK. exact HK.
Qed.

Lemma attention_weights_sum_to_one_witness :
  exists a, ScaledDotProductAttention.attn one_query one_key 1 = Ok a /\
            sum_n (b3 a) (fun t => get4 a 0 0 0 t) = 1%R.
Proof.
  eexists. split; [reflexivity |].
  apply (attention_weights_sum_to_one one_query one_key 1 _ eq_refl);
    first [exact Rlt_0_1 | exact (le_n 1)].
Defined.

(** Over the reals, for every feature map x and every permutation p of the
    flattened height×width positions, the stack applied to the permuted
    map is the permuted result of the stack; on a map of valid shape (512
    channels, a batch that is not empty) this result is an output,
    otherwise both sides raise the same error.  The part on errors and
    shapes does not depend on the arithmetic. *)
Theorem stack_permutation_equivariant (m : Multi_Heads.t) (x : Tensor4) (p : list nat) :
  stack_configured m = true ->
  is_permutation p (b2 x * b3 x) ->
  Multi_Heads.forward m (permute_positions p x)
  = rmap (permute_positions p) (Multi_Heads.forward m x) /\
  (b1 x = 512 -> 0 < b0 x -> exists y, Multi_Heads.forward m x = Ok y).
Proof.
  intros Hc Hp. split; [| intros HC HB; eexists; now apply stack_forward_closed].
  destruct (Nat.eq_dec (b1 x) 512) as [HC | HC].
  - destruct (Nat.eq_dec (b0 x) 0) as [HB | HB].
    + now rewrite !stack_forward_empty_batch.
    + rewrite !stack_forward_closed by (assumption || (cbn [b0 permute_positions]; lia)).
      unfold rmap. cbn [bind]. f_equal.
      change (b2 (permute_positions p x)) with (b2 x).
      change (b3 (permute_positions p x)) with (b3 x).
      rewrite tokens_permute by assumption.
      rewrite self_attention_permute by exact Hp.
      rewrite self_attention_permute by exact Hp.
      now apply feature_map_permute.
  - now rewrite !stack_forward_mismatch.
Qed.

Lemma stack_permutation_equivariant_witness :
  exists y, Multi_Heads.forward default_stack map_512 = Ok y /\
            Multi_Heads.forward default_stack (permute_positions [1; 0] map_512)
            = Ok (permute_positions [1; 0] y).
Proof.
  destruct (stack_permutation_equivariant default_stack map_512 [1; 0]
              (stack_init_configured zero_stack) (perm_swap 0 1 [])) as [Heq Hok].
  destruct (Hok eq_refl (le_n 1)) as [y Hy].
  exists y. split; [exact Hy |]. rewrite Heq, Hy. reflexivity.
Defined.
